(** * Stripeflare webhook worker: a shallow embedding of [main.ts]

    The worker exports one [fetch] handler.  It drains the request body with
    [streamToBuffer], checks the configured credentials and the
    [stripe-signature] header, has the Stripe library verify and decode the
    event, and answers according to the event type.

    The embedding keeps the shape of the source: byte arrays are lists of
    bytes, a readable stream is the finite queue of chunks it will deliver
    together with the way it ends, console output is a trace that is threaded
    through the handler, and a thrown exception is an explicit completion. *)

From Stdlib Require Import String Ascii List ZArith Bool Arith Lia.
From Stdlib Require Import Strings.Byte DecimalString.
Import ListNotations.

Local Open Scope string_scope.

(* ================================================================= *)
(** ** JavaScript values used by the worker *)

(** An [Error] object, as far as the worker looks at it. *)
Record JsError : Type := mkJsError {
  err_name : string;
  err_message : string
}.

(** [String(err)], that is [Error.prototype.toString]. *)
Definition String_of_error (e : JsError) : string :=
  if String.eqb (err_name e) "" then err_message e
  else if String.eqb (err_message e) "" then err_name e
  else err_name e ++ ": " ++ err_message e.

(** The completion of a call: a value, or a thrown exception. *)
Inductive Completion (A : Type) : Type :=
| Normal (a : A)
| Throw (e : JsError).
Arguments Normal {A} a.
Arguments Throw {A} e.

(** Truthiness of a string: only the empty string is falsy. *)
Definition truthy (s : string) : bool := negb (String.eqb s "").

(** Rendering of an integral [number] inside a template literal. *)
Definition string_of_number (n : Z) : string :=
  NilZero.string_of_int (Z.to_int n).

(** Rendering of a [string | null] inside a template literal. *)
Definition string_of_nullable (s : option string) : string :=
  match s with
  | Some v => v
  | None => "null"
  end.

(* ================================================================= *)
(** ** Uint8Array *)

Definition Uint8Array : Type := list byte.

(** [new Uint8Array(n)]: [n] zero bytes. *)
Definition Uint8Array_new (n : nat) : Uint8Array := repeat x00 n.

(** Element-wise overwrite of [target] from index [offset] on with the bytes
    of [source]; the length of [target] never changes. *)
Fixpoint overwrite (target : Uint8Array) (offset : nat) (source : Uint8Array)
  : Uint8Array :=
  match target with
  | [] => []
  | t :: ts =>
      match offset with
      | S o => t :: overwrite ts o source
      | O =>
          match source with
          | [] => target
          | s :: ss => s :: overwrite ts O ss
          end
      end
  end.

Definition RangeError : JsError := mkJsError "RangeError" "offset is out of bounds".

(** [target.set(source, offset)]: throws a RangeError when the source does
    not fit, otherwise copies it in place. *)
Definition Uint8Array_set (target source : Uint8Array) (offset : nat)
  : Completion Uint8Array :=
  if (offset + length source <=? length target)%nat
  then Normal (overwrite target offset source)
  else Throw RangeError.

(* ================================================================= *)
(** ** ReadableStream *)

(** How a stream ends once its queue is drained: it closes, or it errors
    (a network failure, or the caller aborting the request). *)
Inductive StreamEnd : Type :=
| Closed
| Errored (reason : JsError).

Record ReadableStream : Type := mkStream {
  queue : list Uint8Array;
  ending : StreamEnd;
  locked : bool
}.

Definition LockedError : JsError :=
  mkJsError "TypeError" "ReadableStream is locked".

(** The [while (true)] loop of [streamToBuffer].  Each iteration is one
    [reader.read()]: a queued chunk is a [{done: false, value}] and is pushed
    onto [chunks]; on the drained queue of a closed stream the read answers
    [{done: true}] and the loop breaks; on the drained queue of an errored
    stream the read rejects and the exception leaves the loop.  The recursion
    is on the queue of the stream, which is what bounds the loop.  The second
    component is the queue left in the stream. *)
Fixpoint read_loop (q : list Uint8Array) (e : StreamEnd) (chunks : list Uint8Array)
  : Completion (list Uint8Array) * list Uint8Array :=
  match q with
  | c :: rest => read_loop rest e (chunks ++ [c])%list
  | [] =>
      match e with
      | Closed => (Normal chunks, [])
      | Errored r => (Throw r, [])
      end
  end.

(** [chunks.reduce((acc, chunk) => acc + chunk.length, 0)]. *)
Definition totalLength (chunks : list Uint8Array) : nat :=
  fold_left (fun acc chunk => (acc + length chunk)%nat) chunks 0%nat.

(** The copy loop: [result.set(chunk, position); position += chunk.length]. *)
Fixpoint copy_chunks (chunks : list Uint8Array) (result : Uint8Array)
    (position : nat) : Completion Uint8Array :=
  match chunks with
  | [] => Normal result
  | chunk :: rest =>
      match Uint8Array_set result chunk position with
      | Normal result' => copy_chunks rest result' (position + length chunk)
      | Throw e => Throw e
      end
  end.

(** [streamToBuffer].  The [finally] block releases the lock on both exits
    of the [try]; there is no [catch], so a failed read is rethrown. *)
Definition streamToBuffer (readableStream : ReadableStream)
  : Completion Uint8Array * ReadableStream :=
  if locked readableStream then (Throw LockedError, readableStream)
  else
    let '(read, rest) :=
      read_loop (queue readableStream) (ending readableStream) [] in
    let released := mkStream rest (ending readableStream) false in
    match read with
    | Throw e => (Throw e, released)
    | Normal chunks =>
        (copy_chunks chunks (Uint8Array_new (totalLength chunks)) 0, released)
    end.

(* ================================================================= *)
(** ** Request, Response and JSON *)

(** A [Headers] object: the Fetch API stores header names in lower case, and
    [get] joins the values of a repeated header with a comma and a space. *)
Definition Headers : Type := list (string * string).

Fixpoint header_values (h : Headers) (name : string) : list string :=
  match h with
  | [] => []
  | (k, v) :: rest =>
      if String.eqb k name then v :: header_values rest name
      else header_values rest name
  end.

Definition Headers_get (h : Headers) (name : string) : option string :=
  match header_values h name with
  | [] => None
  | v :: vs => Some (String.concat ", " (v :: vs))
  end.

Record Request : Type := mkRequest {
  url : string;
  method : string;
  headers : Headers;
  body : option ReadableStream
}.

Record Response : Type := mkResponse {
  status : Z;
  response_body : string;
  response_headers : Headers
}.

(** [new Response(body, init)]: a missing [init.status] means 200.  The
    headers are those of [init]; the content type the platform adds to a
    text body of its own accord is left out. *)
Definition Response_new (text : string) (init_status : option Z)
    (init_headers : Headers) : Response :=
  mkResponse
    (match init_status with
     | Some code => code
     | None => 200%Z
     end)
    text init_headers.

(** The object literals the worker serialises are flat. *)
Inductive JsonPrim : Type :=
| JBool (b : bool)
| JNumber (n : Z)
| JString (s : string).

Definition dquote : string := String (ascii_of_nat 34) EmptyString.
Definition backslash : string := String (ascii_of_nat 92) EmptyString.

(** Escaping of a string literal: the quote and the backslash (the messages
    of the worker hold no control characters). *)
Fixpoint json_escape (s : string) : string :=
  match s with
  | EmptyString => EmptyString
  | String c rest =>
      if Ascii.eqb c (ascii_of_nat 34) then backslash ++ dquote ++ json_escape rest
      else if Ascii.eqb c (ascii_of_nat 92) then backslash ++ backslash ++ json_escape rest
      else String c (json_escape rest)
  end.

Definition json_quote (s : string) : string := dquote ++ json_escape s ++ dquote.

Definition json_prim (v : JsonPrim) : string :=
  match v with
  | JBool true => "true"
  | JBool false => "false"
  | JNumber n => string_of_number n
  | JString s => json_quote s
  end.

(** [JSON.stringify] of a flat object literal. *)
Definition JSON_stringify (fields : list (string * JsonPrim)) : string :=
  "{" ++ String.concat ","
           (map (fun kv => json_quote (fst kv) ++ ":" ++ json_prim (snd kv)) fields)
      ++ "}".

Definition json_headers : Headers := [("Content-Type", "application/json")].

(* ================================================================= *)
(** ** Stripe objects *)

(** The bindings of the worker.  They are declared as strings; a binding
    that is not configured is falsy like the empty string. *)
Record Env : Type := mkEnv {
  STRIPE_WEBHOOK_SIGNING_SECRET : string;
  STRIPE_SECRET : string;
  STRIPE_PUBLISHABLE_KEY : string;
  STRIPE_PAYMENT_LINK_ID : string
}.

(** [Stripe.Checkout.Session.PaymentStatus]. *)
Inductive PaymentStatus : Type :=
| paid
| unpaid_payment
| no_payment_required.

(** [Stripe.Checkout.Session.Mode]. *)
Inductive Mode : Type :=
| mode_payment
| mode_setup
| mode_subscription.

(** [payment_link: string | Stripe.PaymentLink | null]. *)
Inductive PaymentLink : Type :=
| link_null
| link_id (id : string)
| link_expanded (id : string).

Record CustomerDetails : Type := mkCustomerDetails {
  email : option string;
  name : option string
}.

(** The fields of a checkout session that the worker reads. *)
Record Session : Type := mkSession {
  payment_status : PaymentStatus;
  mode : Mode;
  amount_total : option Z;
  payment_link : PaymentLink;
  customer_details : option CustomerDetails;
  currency : option string
}.

(** [Stripe.Subscription.Status]. *)
Inductive SubscriptionStatus : Type :=
| active
| canceled
| incomplete
| incomplete_expired
| past_due
| paused
| trialing
| unpaid.

Record Subscription : Type := mkSubscription {
  subscription_status : SubscriptionStatus
}.

(** [event.data.object]: a checkout session, a subscription, some other
    value that has none of the fields the worker reads, or nothing at all.
    [NullObject] stands for an object that is [null] or [undefined], and for
    an event whose [data] is: reading a field of it throws a TypeError. *)
Inductive StripeObject : Type :=
| SessionObject (s : Session)
| SubscriptionObject (s : Subscription)
| OtherObject
| NullObject.

Record Event : Type := mkEvent {
  id : string;
  type : string;
  data_object : StripeObject
}.

(** What [constructEventAsync] resolves to: the library checks the signature
    and returns the parsed body as it is, so a signed body [null] comes back
    as [null] and not as an event.  A value that is not [null] and has no
    [type] that is a string (a number, a string, an object without the
    field) equals none of the handled types: it is written as an event of an
    unhandled type, which is answered without its object being read. *)
Inductive Payload : Type :=
| NullPayload
| EventPayload (event : Event).

(** The TypeError of reading a property of [null] or [undefined].  The text
    is the engine's own and depends on the place and on the value read; the
    three texts below are those for [null]. *)
Definition TypeError (message : string) : JsError := mkJsError "TypeError" message.

(** Line 139: [event.type] on a [null] event. *)
Definition NullEventError : JsError :=
  TypeError "Cannot read properties of null (reading 'type')".

(** Lines 140 to 147: the destructuring of a missing [event.data.object]. *)
Definition NullSessionError : JsError :=
  TypeError
    "Cannot destructure property 'payment_status' of 'event.data.object' as it is null.".

(** Line 12: [data.status] on a missing subscription. *)
Definition NullSubscriptionError : JsError :=
  TypeError "Cannot read properties of null (reading 'status')".

(* ================================================================= *)
(** ** Console output and the handler monad *)

Inductive ConsoleLevel : Type :=
| Log
| Warn.

Inductive ConsoleArg : Type :=
| CString (s : string)
| CCredentials (stripePublishableKey stripeSecret stripeWebhookSigningSecret : string)
| CError (e : JsError)
| CObject (o : StripeObject).

Record ConsoleCall : Type := mkConsoleCall {
  level : ConsoleLevel;
  args : list ConsoleArg
}.

Definition Console : Type := list ConsoleCall.

(** A computation of the handler: it extends the console and completes. *)
Definition M (A : Type) : Type := Console -> Completion A * Console.

Definition ret {A : Type} (a : A) : M A := fun c => (Normal a, c).

Definition bind {A B : Type} (m : M A) (k : A -> M B) : M B :=
  fun c =>
    match m c with
    | (Normal a, c') => k a c'
    | (Throw e, c') => (Throw e, c')
    end.

Definition lift {A : Type} (r : Completion A) : M A := fun c => (r, c).

Definition console_log (a : list ConsoleArg) : M unit :=
  fun c => (Normal tt, (c ++ [mkConsoleCall Log a])%list).

Definition console_warn (a : list ConsoleArg) : M unit :=
  fun c => (Normal tt, (c ++ [mkConsoleCall Warn a])%list).

Declare Scope handler_scope.
Delimit Scope handler_scope with handler.
Notation "x <- m ;; k" := (bind m (fun x => k))
  (at level 61, m at next level, right associativity) : handler_scope.
Notation "m ;; k" := (bind m (fun _ => k))
  (at level 61, right associativity) : handler_scope.
Local Open Scope handler_scope.

(* ================================================================= *)
(** ** The worker *)

(** [updateSubscribed]: the object it resolves to. *)
Record UpdateResult : Type := mkUpdateResult {
  result_status : Z;
  result_message : string
}.

Definition updateSubscribed (data : Subscription) : UpdateResult :=
  let shouldRemoveSubscription :=
    match subscription_status data with
    | unpaid => true
    | canceled => true
    | _ => false
    end in
  if negb shouldRemoveSubscription
  then mkUpdateResult 200 "No action required"
  else mkUpdateResult 200
         "Removed from subscribers (they had credits before removal)".

(** [payment_link !== env.STRIPE_PAYMENT_LINK_ID]: only a string can be
    strictly equal to the configured id. *)
Definition payment_link_differs (l : PaymentLink) (expected : string) : bool :=
  match l with
  | link_id i => negb (String.eqb i expected)
  | link_null => true
  | link_expanded _ => true
  end.

(** [!amount_total] on a [number | null]. *)
Definition amount_falsy (a : option Z) : bool :=
  match a with
  | None => true
  | Some n => Z.eqb n 0
  end.

Definition is_paid (p : PaymentStatus) : bool :=
  match p with
  | paid => true
  | _ => false
  end.

Definition unsupported_mode (m : Mode) : bool :=
  match m with
  | mode_subscription => true
  | mode_setup => true
  | mode_payment => false
  end.

(** [amount_total < 50] on a [number | null]: [null] converts to 0. *)
Definition amount_below (a : option Z) (threshold : Z) : bool :=
  match a with
  | Some n => (n <? threshold)%Z
  | None => (0 <? threshold)%Z
  end.

(** Rendering of a [number | null] inside a template literal. *)
Definition string_of_amount (a : option Z) : string :=
  match a with
  | Some n => string_of_number n
  | None => "null"
  end.

(** The text logged and answered at the place where the payment is to be
    fulfilled. *)
Definition paid_message (c : CustomerDetails) (amount : option Z) : string :=
  "Not implemented yet, but " ++ string_of_nullable (name c) ++ " <"
    ++ string_of_nullable (email c) ++ "> paid " ++ string_of_amount amount
    ++ " cents".

Definition isDebugInput : bool := false.

(** The branch for [checkout.session.completed] (lines 139 to 182).  An
    object that is no session has none of the destructured fields:
    [payment_link] is then [undefined], which differs from the configured
    id.  A missing object cannot be destructured: the TypeError is thrown
    outside any [try] block. *)
Definition checkout_session_completed (env : Env) (event : Event) : M Response :=
  match data_object event with
  | SessionObject s =>
      if payment_link_differs (payment_link s) (STRIPE_PAYMENT_LINK_ID env)
      then ret (Response_new "No payment link found" (Some 400%Z) [])
      else if negb (is_paid (payment_status s)) || amount_falsy (amount_total s)
      then ret (Response_new "Payment not paid yet" (Some 400%Z) [])
      else
        match customer_details s with
        | None => ret (Response_new "No customer details provided" (Some 400%Z) [])
        | Some c =>
            if unsupported_mode (mode s)
            then ret (Response_new "Not supported yet" (Some 400%Z) [])
            else if amount_below (amount_total s) 50
            then ret (Response_new "Paid less than $0.50" (Some 400%Z) [])
            else
              console_log [CObject (data_object event);
                           CString (paid_message c (amount_total s))] ;;
              ret (Response_new (paid_message c (amount_total s)) None [])
        end
  | NullObject => lift (Throw NullSessionError)
  | SubscriptionObject _ | OtherObject =>
      ret (Response_new "No payment link found" (Some 400%Z) [])
  end.

(** The branch for the subscription events (lines 185 to 195).  An object
    that is no subscription has no [status], and [undefined] is neither
    [unpaid] nor [canceled].  On a missing object [updateSubscribed] throws
    when it reads [data.status], outside any [try] block. *)
Definition subscription_event (event : Event) : M Response :=
  result <-
    match data_object event with
    | SubscriptionObject sub => ret (updateSubscribed sub)
    | NullObject => lift (Throw NullSubscriptionError)
    | SessionObject _ | OtherObject =>
        ret (mkUpdateResult 200 "No action required")
    end ;;
  ret (Response_new
         (JSON_stringify [("status", JNumber (result_status result));
                          ("message", JString (result_message result))])
         None json_headers).

(** What [fetch] does with the verified event (lines 139 to 206). *)
Definition handle_event (env : Env) (event : Event) : M Response :=
  if String.eqb (type event) "checkout.session.completed"
  then checkout_session_completed env event
  else if String.eqb (type event) "customer.subscription.deleted"
          || String.eqb (type event) "customer.subscription.updated"
          || String.eqb (type event) "customer.subscription.paused"
  then subscription_event event
  else
    (if isDebugInput
     then console_log [CString "UNHANLDED EVENT"; CString (type event)]
     else ret tt) ;;
    ret (Response_new
           (JSON_stringify [("isSuccessful", JBool false);
                            ("message", JString "Invalid event")])
           (Some 404%Z) []).

Section Worker.

(** [new TextDecoder().decode]: the platform's UTF-8 decoder. *)
Variable TextDecoder_decode : Uint8Array -> string.

(** [stripe.webhooks.constructEventAsync(payload, header, secret)] of the
    Stripe library: the parsed body, or the error it throws (a signature
    that does not verify, a body that is no JSON).  The clock it compares
    the signed timestamp with is part of this function. *)
Variable constructEventAsync : string -> string -> string -> Completion Payload.

(** The exported [fetch] handler. *)
Definition fetch (request : Request) (env : Env) : M Response :=
  match body request with
  | None =>
      ret (Response_new
             (JSON_stringify [("isSuccessful", JBool false);
                              ("message", JString "No body")])
             None json_headers)
  | Some stream =>
      rawBody <- lift (fst (streamToBuffer stream)) ;;
      let rawBodyString := TextDecoder_decode rawBody in
      let stripeWebhookSigningSecret := STRIPE_WEBHOOK_SIGNING_SECRET env in
      let stripeSecret := STRIPE_SECRET env in
      let stripePublishableKey := STRIPE_PUBLISHABLE_KEY env in
      let paymentLinkId := STRIPE_PAYMENT_LINK_ID env in
      if negb (truthy stripeWebhookSigningSecret)
         || negb (truthy stripeSecret)
         || negb (truthy stripePublishableKey)
         || negb (truthy paymentLinkId)
      then
        console_log [CString "NO STRIPE CREDENTIALS";
                     CCredentials stripePublishableKey stripeSecret
                       stripeWebhookSigningSecret] ;;
        ret (Response_new
               (JSON_stringify [("isSuccessful", JBool false);
                                ("message", JString "No stripe creds")])
               (Some 500%Z) json_headers)
      else
        match Headers_get (headers request) "stripe-signature" with
        | None =>
            console_log [CString "NO stripe signature"] ;;
            ret (Response_new
                   (JSON_stringify [("isSuccessful", JBool false);
                                    ("message", JString "No signature")])
                   (Some 400%Z) json_headers)
        | Some stripeSignature =>
            if negb (truthy stripeSignature)
            then
              console_log [CString "NO stripe signature"] ;;
              ret (Response_new
                     (JSON_stringify [("isSuccessful", JBool false);
                                      ("message", JString "No signature")])
                     (Some 400%Z) json_headers)
            else
              (if isDebugInput
               then console_log [CString "Received a webhook with data:";
                                 CString rawBodyString;
                                 CString stripeSignature;
                                 CString stripeWebhookSigningSecret]
               else ret tt) ;;
              match constructEventAsync rawBodyString stripeSignature
                      stripeWebhookSigningSecret with
              | Throw err =>
                  console_warn [CString "Error web hook"; CError err] ;;
                  ret (Response_new ("webhook error " ++ String_of_error err)
                         (Some 400%Z) [])
              | Normal NullPayload => lift (Throw NullEventError)
              | Normal (EventPayload event) => handle_event env event
              end
        end
  end.

(** [n] deliveries of the same request, one after the other, on the same
    console: every delivery is a new invocation of [fetch] on a request with
    the same headers and a fresh body stream of the same chunks.  The module
    has no variable of its own, so nothing else passes from one invocation
    to the next. *)
Fixpoint deliver (n : nat) (request : Request) (env : Env) (c : Console)
  : list (Completion Response) * Console :=
  match n with
  | O => ([], c)
  | S k =>
      let '(r, c1) := fetch request env c in
      let '(rs, c2) := deliver k request env c1 in
      (r :: rs, c2)
  end.

End Worker.

(** The console call made where the payment is to be fulfilled (line 173):
    the session object followed by the text. *)
Definition is_fulfillment (call : ConsoleCall) : bool :=
  match level call, args call with
  | Log, [CObject (SessionObject _); CString _] => true
  | _, _ => false
  end.

Definition fulfillments (c : Console) : nat :=
  length (filter is_fulfillment c).


(* ================================================================= *)
(** ** Vocabulary of the statements *)

(** The four credentials are configured. *)
Definition credentials_present (env : Env) : bool :=
  truthy (STRIPE_WEBHOOK_SIGNING_SECRET env)
  && truthy (STRIPE_SECRET env)
  && truthy (STRIPE_PUBLISHABLE_KEY env)
  && truthy (STRIPE_PAYMENT_LINK_ID env).

(** The request carries a body that is read to its end, the credentials are
    configured, the signature header is present, and the Stripe library
    verifies and decodes the body as [event]. *)
Definition verified_as (decode : Uint8Array -> string)
    (verify : string -> string -> string -> Completion Payload)
    (request : Request) (env : Env) (event : Event) : Prop :=
  exists stream signature,
    body request = Some stream
    /\ locked stream = false
    /\ ending stream = Closed
    /\ credentials_present env = true
    /\ Headers_get (headers request) "stripe-signature" = Some signature
    /\ truthy signature = true
    /\ verify (decode (concat (queue stream))) signature
         (STRIPE_WEBHOOK_SIGNING_SECRET env) = Normal (EventPayload event).

(** The event is a completed checkout carrying the session [s]. *)
Definition checkout_event (event : Event) (s : Session) : Prop :=
  type event = "checkout.session.completed" /\ data_object event = SessionObject s.

(** The event is one of the three subscription events, carrying [sub]. *)
Definition subscription_event_of (event : Event) (sub : Subscription) : Prop :=
  (type event = "customer.subscription.deleted"
   \/ type event = "customer.subscription.updated"
   \/ type event = "customer.subscription.paused")
  /\ data_object event = SubscriptionObject sub.

(** The event type is none of the four the worker handles. *)
Definition unhandled_type (t : string) : bool :=
  negb (String.eqb t "checkout.session.completed")
  && negb (String.eqb t "customer.subscription.deleted")
  && negb (String.eqb t "customer.subscription.updated")
  && negb (String.eqb t "customer.subscription.paused").

(** The product-reference check passes. *)
Definition link_matches (env : Env) (s : Session) : bool :=
  negb (payment_link_differs (payment_link s) (STRIPE_PAYMENT_LINK_ID env)).

(** The paid-status check passes. *)
Definition paid_check (s : Session) : bool :=
  is_paid (payment_status s) && negb (amount_falsy (amount_total s)).

(** The mode check passes. *)
Definition mode_check (s : Session) : bool := negb (unsupported_mode (mode s)).

(** A session that passes every check of the checkout branch. *)
Definition accepted (env : Env) (s : Session) (c : CustomerDetails) : Prop :=
  link_matches env s = true
  /\ paid_check s = true
  /\ customer_details s = Some c
  /\ mode_check s = true
  /\ amount_below (amount_total s) 50 = false.

(** A success status and a client-error status. *)
Definition success_status (code : Z) : bool := (200 <=? code)%Z && (code <=? 299)%Z.
Definition client_error_status (code : Z) : bool := (400 <=? code)%Z && (code <=? 499)%Z.

(** The status codes the worker answers with. *)
Definition defined_status (code : Z) : bool :=
  (code =? 200)%Z || (code =? 400)%Z || (code =? 404)%Z || (code =? 500)%Z.

(** Why the body of a request cannot be read to its end, if it cannot. *)
Definition body_failure (request : Request) : option JsError :=
  match body request with
  | None => None
  | Some stream =>
      if locked stream then Some LockedError
      else
        match ending stream with
        | Closed => None
        | Errored reason => Some reason
        end
  end.

(** The answer at the place where the payment is to be fulfilled. *)
Definition paid_response (c : CustomerDetails) (s : Session) : Response :=
  mkResponse 200 (paid_message c (amount_total s)) [].

Definition fulfillment_call (c : CustomerDetails) (s : Session) : ConsoleCall :=
  mkConsoleCall Log [CObject (SessionObject s); CString (paid_message c (amount_total s))].

(* ================================================================= *)
(** ** Concrete deliveries *)

Module Sample.

Definition env : Env := mkEnv "whsec_test" "sk_test" "pk_test" "plink_1".

(** Latin-1 bytes read as characters; enough for the bodies below. *)
Definition decode (bytes : Uint8Array) : string := string_of_list_byte bytes.

Definition SignatureError : JsError :=
  mkJsError "StripeSignatureVerificationError"
    "No signatures found matching the expected signature for payload".

(** A verifier that accepts the one signature below and decodes every
    accepted body as [event]. *)
Definition verifier_for (event : Event)
  : string -> string -> string -> Completion Payload :=
  fun _ header _ =>
    if String.eqb header "t=1,v1=valid" then Normal (EventPayload event)
    else Throw SignatureError.

Definition payload : list Uint8Array := [[x7b; x22]; []; [x22; x7d]].

Definition post (b : option ReadableStream) : Request :=
  mkRequest "https://example.com/stripe-webhook" "POST"
    [("content-type", "application/json"); ("stripe-signature", "t=1,v1=valid")]
    b.

Definition request : Request := post (Some (mkStream payload Closed false)).



Definition bodiless_request : Request := post None.

Definition customer : CustomerDetails :=
  mkCustomerDetails (Some "ann@example.com") (Some "Ann").

Definition session (amount : Z) : Session :=
  mkSession paid mode_payment (Some amount) (link_id "plink_1")
    (Some customer) (Some "usd").

Definition checkout (s : Session) : Event :=
  mkEvent "evt_1" "checkout.session.completed" (SessionObject s).

Definition subscription (t : string) (st : SubscriptionStatus) : Event :=
  mkEvent "evt_2" t (SubscriptionObject (mkSubscription st)).

Definition foo_bar : Event := mkEvent "evt_3" "foo.bar" OtherObject.

(** A paid session for 500 whose customer has the empty email. *)
Definition empty_email : CustomerDetails := mkCustomerDetails (Some "") (Some "Ann").

Definition empty_email_session : Session :=
  mkSession paid mode_payment (Some 500%Z) (link_id "plink_1")
    (Some empty_email) (Some "usd").

(** A paid session for 0 that came through another payment link. *)
Definition other_link_session : Session :=
  mkSession paid mode_payment (Some 0%Z) (link_id "plink_2")
    (Some customer) (Some "usd").

End Sample.

(* ================================================================= *)
(** ** The answers of the handler, by name *)

(** The body of the request is an unlocked stream that delivers the chunks
    [q] and closes. *)
Definition readable (request : Request) (q : list Uint8Array) : Prop :=
  body request = Some (mkStream q Closed false).

(** The request has no [stripe-signature] header, or an empty one. *)
Definition unsigned (request : Request) : Prop :=
  Headers_get (headers request) "stripe-signature" = None
  \/ Headers_get (headers request) "stripe-signature" = Some "".

(** The request carries the non-empty signature header [signature]. *)
Definition signed_with (request : Request) (signature : string) : Prop :=
  Headers_get (headers request) "stripe-signature" = Some signature
  /\ truthy signature = true.

(** Line 69. *)
Definition no_body_response : Response :=
  mkResponse 200
    (JSON_stringify [("isSuccessful", JBool false); ("message", JString "No body")])
    json_headers.

(** Lines 91 to 99. *)
Definition credentials_call (env : Env) : ConsoleCall :=
  mkConsoleCall Log
    [CString "NO STRIPE CREDENTIALS";
     CCredentials (STRIPE_PUBLISHABLE_KEY env) (STRIPE_SECRET env)
       (STRIPE_WEBHOOK_SIGNING_SECRET env)].

Definition no_credentials_response : Response :=
  mkResponse 500
    (JSON_stringify [("isSuccessful", JBool false);
                     ("message", JString "No stripe creds")])
    json_headers.

(** Lines 109 to 113. *)
Definition no_signature_call : ConsoleCall :=
  mkConsoleCall Log [CString "NO stripe signature"].

Definition no_signature_response : Response :=
  mkResponse 400
    (JSON_stringify [("isSuccessful", JBool false);
                     ("message", JString "No signature")])
    json_headers.

(** Lines 134 to 136. *)
Definition webhook_error_call (err : JsError) : ConsoleCall :=
  mkConsoleCall Warn [CString "Error web hook"; CError err].

Definition webhook_error_response (err : JsError) : Response :=
  mkResponse 400 ("webhook error " ++ String_of_error err) [].

(** Lines 192 to 194, for the message [message] of [updateSubscribed]. *)
Definition subscription_response (message : string) : Response :=
  mkResponse 200
    (JSON_stringify [("status", JNumber 200); ("message", JString message)])
    json_headers.

Definition removal_message : string :=
  "Removed from subscribers (they had credits before removal)".

(** Lines 202 to 205. *)
Definition invalid_event_response : Response :=
  mkResponse 404
    (JSON_stringify [("isSuccessful", JBool false);
                     ("message", JString "Invalid event")])
    [].

(** A refusal of the checkout branch: status 400 and a plain text. *)
Definition refusal (text : string) : Response := mkResponse 400 text [].

(** The conditions of the checkout branch in terms of the session: it came
    through the configured payment link (as an id, not an expanded object),
    it is paid, its amount is [amount] and at least 50, the customer details
    are [cust], and it is a one-time payment. *)
Definition payable (env : Env) (s : Session) (cust : CustomerDetails)
    (amount : Z) : Prop :=
  payment_link s = link_id (STRIPE_PAYMENT_LINK_ID env)
  /\ payment_status s = paid
  /\ amount_total s = Some amount
  /\ (50 <= amount)%Z
  /\ customer_details s = Some cust
  /\ mode s = mode_payment.

(** The handler reaches the verification, which resolves to [payload]. *)
Definition verifies_to (decode : Uint8Array -> string)
    (verify : string -> string -> string -> Completion Payload)
    (request : Request) (env : Env) (payload : Payload) : Prop :=
  exists q signature,
    readable request q
    /\ credentials_present env = true
    /\ signed_with request signature
    /\ verify (decode (concat q)) signature
         (STRIPE_WEBHOOK_SIGNING_SECRET env) = Normal payload.

(** A payload the handler cannot read: [null], or an event of one of the
    four handled types whose [data.object] is missing. *)
Definition unreadable (payload : Payload) : bool :=
  match payload with
  | NullPayload => true
  | EventPayload event =>
      negb (unhandled_type (type event))
      && match data_object event with
         | NullObject => true
         | _ => false
         end
  end.

(** The event is one of the three subscription events. *)
Definition subscription_type (t : string) : Prop :=
  t = "customer.subscription.deleted"
  \/ t = "customer.subscription.updated"
  \/ t = "customer.subscription.paused".

Module Cases.

(** The payment link id is not configured. *)
Definition env_without_link : Env := mkEnv "whsec_test" "sk_test" "pk_test" "".

Definition stream : ReadableStream := mkStream Sample.payload Closed false.

(** No signature header at all. *)
Definition unsigned_request : Request :=
  mkRequest "https://example.com/stripe-webhook" "POST"
    [("content-type", "application/json")] (Some stream).

(** A signature the sample verifier refuses. *)
Definition forged_request : Request :=
  mkRequest "https://example.com/stripe-webhook" "POST"
    [("stripe-signature", "t=1,v1=forged")] (Some stream).

(** The bytes of [Sample.payload], cut at other places. *)
Definition rechunked : list Uint8Array := [[x7b]; [x22; x22; x7d]].

(** The configured payment link, but as an expanded object. *)
Definition expanded_link_session : Session :=
  mkSession paid mode_payment (Some 500%Z) (link_expanded "plink_1")
    (Some Sample.customer) (Some "usd").

(** Paid, but without an amount. *)
Definition null_amount_session : Session :=
  mkSession paid mode_payment None (link_id "plink_1")
    (Some Sample.customer) (Some "usd").

(** A setup session for 10, below the threshold. *)
Definition setup_session : Session :=
  mkSession paid mode_setup (Some 10%Z) (link_id "plink_1")
    (Some Sample.customer) (Some "usd").

(** A session for exactly 50. *)
Definition threshold_session : Session := Sample.session 50.

(** A verifier that accepts the sample signature on the body [null]. *)
Definition null_verifier : string -> string -> string -> Completion Payload :=
  fun _ header _ =>
    if String.eqb header "t=1,v1=valid" then Normal NullPayload
    else Throw Sample.SignatureError.

(** A subscription event without [data.object]. *)
Definition objectless : Event :=
  mkEvent "evt_4" "customer.subscription.deleted" NullObject.

End Cases.

(* ================================================================= *)
(** ** The body collector *)

Section Collector.

Local Open Scope list_scope.

Lemma read_loop_closed (q chunks : list Uint8Array) :
  read_loop q Closed chunks = (Normal (chunks ++ q)%list, []).
Proof.
  revert chunks.
  induction q as [|c rest IH]; intros chunks; simpl.
  - now rewrite app_nil_r.
  - rewrite IH, <- app_assoc. reflexivity.
Qed.

Lemma read_loop_errored (q chunks : list Uint8Array) (reason : JsError) :
  read_loop q (Errored reason) chunks = (Throw reason, []).
Proof.
  revert chunks.
  induction q as [|c rest IH]; intros chunks; simpl; auto.
Qed.

Lemma totalLength_from (chunks : list Uint8Array) (acc : nat) :
  fold_left (fun a chunk => (a + length chunk)%nat) chunks acc
  = (acc + list_sum (map (@length byte) chunks))%nat.
Proof.
  revert acc.
  induction chunks as [|c rest IH]; intros acc; simpl.
  - lia.
  - rewrite IH. lia.
Qed.

Lemma totalLength_sum (chunks : list Uint8Array) :
  totalLength chunks = list_sum (map (@length byte) chunks).
Proof. unfold totalLength. now rewrite totalLength_from. Qed.

Lemma overwrite_skip (pre rest source : Uint8Array) :
  overwrite (pre ++ rest) (length pre) source = (pre ++ overwrite rest 0 source)%list.
Proof.
  induction pre as [|p pre IH]; simpl.
  - reflexivity.
  - now rewrite IH.
Qed.

Lemma overwrite_nil (target : Uint8Array) : overwrite target 0 [] = target.
Proof. destruct target; reflexivity. Qed.

Lemma overwrite_fill (source hole rest : Uint8Array) :
  length hole = length source ->
  overwrite (hole ++ rest) 0 source = (source ++ rest)%list.
Proof.
  revert hole.
  induction source as [|s source IH]; intros hole Hlen.
  - destruct hole; [apply overwrite_nil | discriminate].
  - destruct hole as [|h hole]; [discriminate|].
    simpl. f_equal. apply IH. simpl in Hlen. lia.
Qed.

Lemma set_into_zeros (pre chunk : Uint8Array) (m : nat) :
  Uint8Array_set (pre ++ repeat x00 (length chunk + m)) chunk (length pre)
  = Normal ((pre ++ chunk) ++ repeat x00 m)%list.
Proof.
  unfold Uint8Array_set.
  rewrite length_app, repeat_length.
  destruct (Nat.leb_spec (length pre + length chunk)
              (length pre + (length chunk + m))) as [_|Hlt]; [|lia].
  rewrite overwrite_skip, repeat_app, overwrite_fill
    by apply repeat_length.
  now rewrite app_assoc.
Qed.

Lemma copy_chunks_from (chunks : list Uint8Array) (pre : Uint8Array) :
  copy_chunks chunks
    (pre ++ repeat x00 (list_sum (map (@length byte) chunks))) (length pre)
  = Normal (pre ++ concat chunks)%list.
Proof.
  revert pre.
  induction chunks as [|chunk rest IH]; intros pre; simpl.
  - reflexivity.
  - rewrite set_into_zeros.
    replace (length pre + length chunk)%nat with (length (pre ++ chunk))
      by apply length_app.
    rewrite IH, <- app_assoc. reflexivity.
Qed.

Lemma streamToBuffer_closed (chunks : list Uint8Array) :
  streamToBuffer (mkStream chunks Closed false)
  = (Normal (concat chunks), mkStream [] Closed false).
Proof.
  unfold streamToBuffer; simpl.
  rewrite read_loop_closed; simpl.
  unfold Uint8Array_new. rewrite totalLength_sum.
  pose proof (copy_chunks_from chunks []) as Hcopy.
  simpl in Hcopy. now rewrite Hcopy.
Qed.

Lemma streamToBuffer_errored (chunks : list Uint8Array) (reason : JsError) :
  streamToBuffer (mkStream chunks (Errored reason) false)
  = (Throw reason, mkStream [] (Errored reason) false).
Proof.
  unfold streamToBuffer; simpl.
  now rewrite read_loop_errored.
Qed.

(** C8.  Byte-exactness of the body collector: whatever chunks the stream
    delivers before it closes, [streamToBuffer] returns a buffer that is
    their concatenation in order, byte for byte, and whose length is the sum
    of the lengths of the chunks. *)
Theorem streamToBuffer_byte_exact (chunks : list Uint8Array) :
  exists buffer,
    fst (streamToBuffer (mkStream chunks Closed false)) = Normal buffer
    /\ buffer = concat chunks
    /\ length buffer = list_sum (map (@length byte) chunks).
Proof.
  exists (concat chunks).
  rewrite streamToBuffer_closed; simpl.
  repeat split. apply length_concat.
Qed.

End Collector.

(* ================================================================= *)
(** ** The request boundary *)

Section Boundary.

Variable decode : Uint8Array -> string.
Variable verify : string -> string -> string -> Completion Payload.

Lemma credentials_guard (env : Env) :
  negb (truthy (STRIPE_WEBHOOK_SIGNING_SECRET env))
  || negb (truthy (STRIPE_SECRET env))
  || negb (truthy (STRIPE_PUBLISHABLE_KEY env))
  || negb (truthy (STRIPE_PAYMENT_LINK_ID env))
  = negb (credentials_present env).
Proof.
  unfold credentials_present.
  destruct (truthy (STRIPE_WEBHOOK_SIGNING_SECRET env)),
    (truthy (STRIPE_SECRET env)), (truthy (STRIPE_PUBLISHABLE_KEY env)),
    (truthy (STRIPE_PAYMENT_LINK_ID env)); reflexivity.
Qed.

(** A verified request is answered by [handle_event] on the decoded event. *)
Lemma fetch_verified (request : Request) (env : Env) (event : Event) (c : Console) :
  verified_as decode verify request env event ->
  fetch decode verify request env c = handle_event env event c.
Proof.
  intros (stream & signature & Hbody & Hlock & Hend & Hcreds & Hsig & Htruthy & Hverify).
  destruct stream as [q e l]; simpl in *; subst.
  unfold fetch. rewrite Hbody, streamToBuffer_closed.
  unfold bind, lift; simpl.
  rewrite credentials_guard, Hcreds; simpl.
  rewrite Hsig, Htruthy; simpl.
  unfold isDebugInput, ret. now rewrite Hverify.
Qed.

(** A body stream that errors makes the handler throw. *)
Lemma fetch_stream_error (request : Request) (env : Env) (c : Console)
    (q : list Uint8Array) (reason : JsError) :
  body request = Some (mkStream q (Errored reason) false) ->
  fetch decode verify request env c = (Throw reason, c).
Proof.
  intros Hbody. unfold fetch.
  rewrite Hbody, streamToBuffer_errored. reflexivity.
Qed.

Lemma fetch_locked (request : Request) (env : Env) (c : Console)
    (stream : ReadableStream) :
  body request = Some stream -> locked stream = true ->
  fetch decode verify request env c = (Throw LockedError, c).
Proof.
  intros Hbody Hlock. unfold fetch, streamToBuffer.
  rewrite Hbody, Hlock. reflexivity.
Qed.

End Boundary.

(* ================================================================= *)
(** ** Dispatch on the event type *)

Section Dispatch.

Variable env : Env.

Lemma handle_checkout (event : Event) (c : Console) :
  type event = "checkout.session.completed" ->
  handle_event env event c = checkout_session_completed env event c.
Proof. intros Htype. unfold handle_event. now rewrite Htype. Qed.

Lemma handle_subscription (event : Event) (c : Console) :
  type event = "customer.subscription.deleted"
  \/ type event = "customer.subscription.updated"
  \/ type event = "customer.subscription.paused" ->
  handle_event env event c = subscription_event event c.
Proof.
  intros [Htype | [Htype | Htype]]; unfold handle_event; now rewrite Htype.
Qed.

Lemma handle_unhandled (event : Event) (c : Console) :
  unhandled_type (type event) = true ->
  handle_event env event c
  = (Normal (mkResponse 404
               (JSON_stringify [("isSuccessful", JBool false);
                                ("message", JString "Invalid event")]) []), c).
Proof.
  unfold unhandled_type, handle_event. intros Hun.
  repeat (apply andb_prop in Hun; destruct Hun as [Hun ?]).
  repeat match goal with
         | H : negb ?b = true |- _ => apply negb_true_iff in H; rewrite H
         end.
  reflexivity.
Qed.

(** The five checks of the checkout branch, passed in order. *)
Lemma checkout_accepted (event : Event) (s : Session) (cust : CustomerDetails)
    (c : Console) :
  checkout_event event s -> accepted env s cust ->
  handle_event env event c
  = (Normal (paid_response cust s), (c ++ [fulfillment_call cust s])%list).
Proof.
  intros [Htype Hobj] (Hlink & Hpaid & Hcust & Hmode & Hamount).
  rewrite handle_checkout by assumption.
  unfold checkout_session_completed, link_matches, paid_check, mode_check in *.
  rewrite Hobj.
  apply negb_true_iff in Hlink, Hmode. rewrite Hlink.
  apply andb_prop in Hpaid. destruct Hpaid as [Hstatus Hfalsy].
  apply negb_true_iff in Hfalsy. rewrite Hstatus, Hfalsy; simpl.
  rewrite Hcust, Hmode, Hamount.
  reflexivity.
Qed.

(** A verified event is answered, with one of four status codes, unless it
    is of a handled type and has no object: then reading it throws. *)
Lemma handle_event_outcome (event : Event) (c : Console) :
  if unreadable (EventPayload event)
  then exists message, handle_event env event c = (Throw (TypeError message), c)
  else
    exists resp c',
      handle_event env event c = (Normal resp, c')
      /\ defined_status (status resp) = true.
Proof.
  unfold unreadable, unhandled_type, handle_event, checkout_session_completed,
    subscription_event, isDebugInput, bind, lift, ret.
  destruct (String.eqb (type event) "checkout.session.completed"); simpl.
  - destruct (data_object event) as [s|sub| |]; simpl;
      try (eexists; eexists; split; reflexivity); try (eexists; reflexivity).
    destruct (payment_link_differs _ _); [eexists; eexists; split; reflexivity|].
    destruct (negb (is_paid _) || amount_falsy _); [eexists; eexists; split; reflexivity|].
    destruct (customer_details s); [|eexists; eexists; split; reflexivity].
    destruct (unsupported_mode _); [eexists; eexists; split; reflexivity|].
    destruct (amount_below _ _); eexists; eexists; split; reflexivity.
  - destruct (String.eqb (type event) "customer.subscription.deleted"),
      (String.eqb (type event) "customer.subscription.updated"),
      (String.eqb (type event) "customer.subscription.paused"); simpl;
      destruct (data_object event) as [s|sub| |]; simpl;
      try (eexists; eexists; split; reflexivity); eexists; reflexivity.
Qed.

End Dispatch.

(* ================================================================= *)
(** ** Properties of the handler *)

Section Handler.

Local Open Scope list_scope.

Variable decode : Uint8Array -> string.
Variable verify : string -> string -> string -> Completion Payload.

Lemma fulfillments_app (c d : Console) :
  fulfillments (c ++ d) = (fulfillments c + fulfillments d)%nat.
Proof. unfold fulfillments. now rewrite filter_app, length_app. Qed.

Lemma fulfillments_repeat (cust : CustomerDetails) (s : Session) (n : nat) :
  fulfillments (repeat (fulfillment_call cust s) n) = n.
Proof.
  induction n as [|n IH]; [reflexivity|].
  change (repeat (fulfillment_call cust s) (S n))
    with ([fulfillment_call cust s] ++ repeat (fulfillment_call cust s) n).
  rewrite fulfillments_app, IH. reflexivity.
Qed.

(** The worker has no memory of an earlier delivery: each of [n] deliveries
    of an accepted checkout is answered alike and logs the payment again. *)
Lemma deliver_accepted (request : Request) (env : Env) (event : Event)
    (s : Session) (cust : CustomerDetails) (n : nat) (c : Console) :
  verified_as decode verify request env event -> checkout_event event s -> accepted env s cust ->
  deliver decode verify n request env c
  = (repeat (Normal (paid_response cust s)) n,
     c ++ repeat (fulfillment_call cust s) n).
Proof.
  intros Hver Hevent Hacc. revert c.
  induction n as [|n IH]; intros c; simpl.
  - now rewrite app_nil_r.
  - rewrite (fetch_verified _ _ _ _ _ _ Hver),
      (checkout_accepted _ _ _ _ _ Hevent Hacc), IH, <- app_assoc.
    reflexivity.
Qed.

(** C1 (as amended).  The worker keeps no ledger of processed events: [n]
    deliveries of the same accepted checkout event are answered with [n]
    equal success responses, and the place where the payment is to be
    fulfilled is reached on every one of them, [n] times in all. *)
Theorem redelivery_is_processed_again (request : Request) (env : Env)
    (event : Event) (s : Session) (cust : CustomerDetails) (n : nat) :
  verified_as decode verify request env event -> checkout_event event s -> accepted env s cust ->
  fst (deliver decode verify n request env []) = repeat (Normal (paid_response cust s)) n
  /\ success_status (status (paid_response cust s)) = true
  /\ fulfillments (snd (deliver decode verify n request env [])) = n.
Proof.
  intros Hver Hevent Hacc.
  rewrite (deliver_accepted _ _ _ _ _ n [] Hver Hevent Hacc); simpl.
  repeat split. apply fulfillments_repeat.
Qed.

(** C3.  A verified event of a type the worker does not handle is answered
    with status 404 and the message [Invalid event]; nothing is logged.  The
    status is not a success status. *)
Theorem unhandled_event_is_answered_404 (request : Request) (env : Env)
    (event : Event) (c : Console) :
  verified_as decode verify request env event -> unhandled_type (type event) = true ->
  fetch decode verify request env c
  = (Normal (mkResponse 404
               (JSON_stringify [("isSuccessful", JBool false);
                                ("message", JString "Invalid event")]) []), c)
  /\ success_status 404 = false.
Proof.
  intros Hver Hun.
  rewrite (fetch_verified _ _ _ _ _ _ Hver), handle_unhandled by assumption.
  split; reflexivity.
Qed.

(** C4.  A request without a body is answered at once, before any
    verification or dispatch and without a console call, with the message
    [No body]; the response is built without a status, so its status is 200,
    which is no client-error status. *)
Theorem bodiless_request_is_answered_200 (u m : string) (h : Headers)
    (env : Env) (c : Console) :
  fetch decode verify (mkRequest u m h None) env c
  = (Normal (mkResponse 200
               (JSON_stringify [("isSuccessful", JBool false);
                                ("message", JString "No body")]) json_headers), c)
  /\ client_error_status 200 = false.
Proof. split; reflexivity. Qed.

(** The message [updateSubscribed] resolves to, status by status. *)
Lemma updateSubscribed_by_status (sub : Subscription) :
  updateSubscribed sub
  = mkUpdateResult 200
      match subscription_status sub with
      | unpaid | canceled =>
          "Removed from subscribers (they had credits before removal)"%string
      | active | incomplete | incomplete_expired | past_due | paused | trialing =>
          "No action required"%string
      end.
Proof. unfold updateSubscribed. destruct (subscription_status sub); reflexivity. Qed.

Lemma fetch_subscription (request : Request) (env : Env) (event : Event)
    (sub : Subscription) (c : Console) :
  verified_as decode verify request env event -> subscription_event_of event sub ->
  fetch decode verify request env c
  = (Normal (mkResponse 200
               (JSON_stringify
                  [("status"%string, JNumber (result_status (updateSubscribed sub)));
                   ("message"%string, JString (result_message (updateSubscribed sub)))])
               json_headers), c).
Proof.
  intros Hver [Htype Hobj].
  rewrite (fetch_verified _ _ _ _ _ _ Hver), handle_subscription by assumption.
  unfold subscription_event. now rewrite Hobj.
Qed.

(** C5.  Once the payment link and the paid status are accepted, a session
    without customer details is answered 400 and nothing is fulfilled; a
    session with customer details goes on to the mode and amount checks and
    is fulfilled, whatever its email, the empty one and [null] included. *)
Theorem email_is_not_checked (request : Request) (env : Env) (event : Event)
    (s : Session) (c : Console) :
  verified_as decode verify request env event -> checkout_event event s ->
  link_matches env s = true -> paid_check s = true ->
  match customer_details s with
  | None =>
      fetch decode verify request env c
      = (Normal (mkResponse 400 "No customer details provided" []), c)
  | Some cust =>
      mode_check s = true -> amount_below (amount_total s) 50 = false ->
      fetch decode verify request env c
      = (Normal (paid_response cust s), c ++ [fulfillment_call cust s])
  end.
Proof.
  intros Hver Hevent Hlink Hpaid.
  rewrite (fetch_verified _ _ _ _ _ _ Hver).
  destruct (customer_details s) as [cust|] eqn:Hcust.
  - intros Hmode Hamount.
    apply checkout_accepted; [assumption|].
    repeat split; assumption.
  - destruct Hevent as [Htype Hobj].
    rewrite handle_checkout by assumption.
    unfold checkout_session_completed, link_matches, paid_check in *.
    rewrite Hobj.
    apply negb_true_iff in Hlink. rewrite Hlink.
    apply andb_prop in Hpaid. destruct Hpaid as [Hstatus Hfalsy].
    apply negb_true_iff in Hfalsy. rewrite Hstatus, Hfalsy; simpl.
    now rewrite Hcust.
Qed.

(** C6.  A subscription whose status is [paused] is not removed: the worker
    answers [No action required], as it does for an active one. *)
Theorem paused_subscription_is_kept (request : Request) (env : Env)
    (event : Event) (sub : Subscription) (c : Console) :
  verified_as decode verify request env event -> subscription_event_of event sub ->
  subscription_status sub = paused ->
  fetch decode verify request env c
  = (Normal (mkResponse 200
               (JSON_stringify [("status"%string, JNumber 200);
                                ("message"%string, JString "No action required")])
               json_headers), c).
Proof.
  intros Hver Hevent Hstatus.
  rewrite (fetch_subscription _ _ _ _ _ Hver Hevent), updateSubscribed_by_status, Hstatus.
  reflexivity.
Qed.

(** C7.  A checkout session that passes the payment-link, paid-status,
    customer and mode checks and whose amount is below 50 is answered with a
    client-error status, and the console is left as it was: the place where
    the payment is fulfilled is not reached. *)
Theorem amount_below_threshold_is_rejected (request : Request) (env : Env)
    (event : Event) (s : Session) (cust : CustomerDetails) (amount : Z)
    (c : Console) :
  verified_as decode verify request env event -> checkout_event event s ->
  link_matches env s = true -> paid_check s = true ->
  customer_details s = Some cust -> mode_check s = true ->
  amount_total s = Some amount -> (amount < 50)%Z ->
  exists resp,
    fetch decode verify request env c = (Normal resp, c)
    /\ client_error_status (status resp) = true
    /\ response_body resp = "Paid less than $0.50"%string.
Proof.
  intros Hver [Htype Hobj] Hlink Hpaid Hcust Hmode Hamount Hlt.
  exists (mkResponse 400 "Paid less than $0.50" []).
  rewrite (fetch_verified _ _ _ _ _ _ Hver), handle_checkout by assumption.
  unfold checkout_session_completed, link_matches, paid_check, mode_check in *.
  rewrite Hobj.
  apply negb_true_iff in Hlink, Hmode. rewrite Hlink.
  apply andb_prop in Hpaid. destruct Hpaid as [Hstatus Hfalsy].
  apply negb_true_iff in Hfalsy. rewrite Hstatus, Hfalsy; simpl.
  rewrite Hcust, Hmode, Hamount; simpl.
  apply Z.ltb_lt in Hlt. rewrite Hlt.
  repeat split.
Qed.

(** C9 (as amended).  A paid checkout session whose amount is 0 is answered
    with status 400 and the console is left as it was; when its payment link
    is the configured one, the answer is [Payment not paid yet], because a
    zero amount is falsy like a missing one. *)
Theorem zero_amount_is_not_paid (request : Request) (env : Env) (event : Event)
    (s : Session) (c : Console) :
  verified_as decode verify request env event -> checkout_event event s ->
  payment_status s = paid -> amount_total s = Some 0%Z ->
  exists resp,
    fetch decode verify request env c = (Normal resp, c)
    /\ status resp = 400%Z
    /\ (link_matches env s = true ->
        response_body resp = "Payment not paid yet"%string).
Proof.
  intros Hver [Htype Hobj] Hstatus Hamount.
  rewrite (fetch_verified _ _ _ _ _ _ Hver), handle_checkout by assumption.
  unfold checkout_session_completed, link_matches.
  rewrite Hobj, Hstatus, Hamount; simpl.
  destruct (payment_link_differs _ _); eexists; repeat split.
  discriminate.
Qed.

(** C10.  The handler reads neither the URL nor the method of the request:
    two requests with the same headers and the same body are answered alike
    and log alike, whatever their URLs and methods. *)
Theorem fetch_ignores_url_and_method (u1 m1 u2 m2 : string) (h : Headers)
    (b : option ReadableStream) (env : Env) (c : Console) :
  fetch decode verify (mkRequest u1 m1 h b) env c
  = fetch decode verify (mkRequest u2 m2 h b) env c.
Proof. reflexivity. Qed.

End Handler.

(* ================================================================= *)
(** ** The properties on concrete deliveries *)

Section Deliveries.

Local Open Scope list_scope.

Lemma sample_verified (event : Event) :
  verified_as Sample.decode (Sample.verifier_for event) Sample.request Sample.env event.
Proof.
  exists (mkStream Sample.payload Closed false), "t=1,v1=valid"%string.
  repeat split.
Qed.

Lemma sample_accepted :
  accepted Sample.env (Sample.session 500) Sample.customer.
Proof. repeat split. Qed.

Lemma redelivery_is_processed_again_witness :
  let event := Sample.checkout (Sample.session 500) in
  let run := deliver Sample.decode (Sample.verifier_for event) 3 Sample.request Sample.env [] in
  fst run = repeat (Normal (paid_response Sample.customer (Sample.session 500))) 3
  /\ success_status (status (paid_response Sample.customer (Sample.session 500))) = true
  /\ fulfillments (snd run) = 3%nat.
Proof.
  apply (redelivery_is_processed_again Sample.decode
           (Sample.verifier_for (Sample.checkout (Sample.session 500)))
           Sample.request Sample.env (Sample.checkout (Sample.session 500))
           (Sample.session 500) Sample.customer 3).
  - apply sample_verified.
  - split; reflexivity.
  - apply sample_accepted.
Defined.

(** C1, as stated, fails: the same accepted checkout event delivered twice
    reaches the place of fulfillment twice, not once. *)
Lemma redelivery_fulfills_twice :
  let event := Sample.checkout (Sample.session 500) in
  let run := deliver Sample.decode (Sample.verifier_for event) 2 Sample.request Sample.env [] in
  accepted Sample.env (Sample.session 500) Sample.customer
  /\ fulfillments (snd run) = 2%nat
  /\ fulfillments (snd run) <> 1%nat.
Proof.
  split; [apply sample_accepted|].
  split; [reflexivity|].
  vm_compute. discriminate.
Qed.


Lemma unhandled_event_is_answered_404_witness :
  unhandled_type (type Sample.foo_bar) = true
  /\ fetch Sample.decode (Sample.verifier_for Sample.foo_bar) Sample.request Sample.env []
     = (Normal (mkResponse 404
                  (JSON_stringify [("isSuccessful"%string, JBool false);
                                   ("message"%string, JString "Invalid event")]) []), [])
  /\ success_status 404 = false.
Proof.
  split; [reflexivity|].
  apply (unhandled_event_is_answered_404 Sample.decode
           (Sample.verifier_for Sample.foo_bar) Sample.request Sample.env
           Sample.foo_bar []).
  - apply sample_verified.
  - reflexivity.
Defined.

Lemma email_is_not_checked_witness :
  email Sample.empty_email = Some ""%string
  /\ fetch Sample.decode
       (Sample.verifier_for (Sample.checkout Sample.empty_email_session))
       Sample.request Sample.env []
     = (Normal (paid_response Sample.empty_email Sample.empty_email_session),
        [fulfillment_call Sample.empty_email Sample.empty_email_session]).
Proof.
  split; [reflexivity|].
  apply (email_is_not_checked Sample.decode
           (Sample.verifier_for (Sample.checkout Sample.empty_email_session))
           Sample.request Sample.env (Sample.checkout Sample.empty_email_session)
           Sample.empty_email_session []);
    solve [apply sample_verified | split; reflexivity | reflexivity].
Defined.

Lemma paused_subscription_is_kept_witness :
  let event := Sample.subscription "customer.subscription.paused" paused in
  fetch Sample.decode (Sample.verifier_for event) Sample.request Sample.env []
  = (Normal (mkResponse 200
               (JSON_stringify [("status"%string, JNumber 200);
                                ("message"%string, JString "No action required")])
               json_headers), []).
Proof.
  apply (paused_subscription_is_kept Sample.decode
           (Sample.verifier_for (Sample.subscription "customer.subscription.paused" paused))
           Sample.request Sample.env
           (Sample.subscription "customer.subscription.paused" paused)
           (mkSubscription paused) []).
  - apply sample_verified.
  - split; [right; right|]; reflexivity.
  - reflexivity.
Defined.

Lemma amount_below_threshold_is_rejected_witness :
  let event := Sample.checkout (Sample.session 10) in
  (10 < 50)%Z
  /\ exists resp,
       fetch Sample.decode (Sample.verifier_for event) Sample.request Sample.env []
       = (Normal resp, [])
       /\ client_error_status (status resp) = true
       /\ response_body resp = "Paid less than $0.50"%string.
Proof.
  split; [reflexivity|].
  apply (amount_below_threshold_is_rejected Sample.decode
           (Sample.verifier_for (Sample.checkout (Sample.session 10)))
           Sample.request Sample.env (Sample.checkout (Sample.session 10))
           (Sample.session 10) Sample.customer 10 []);
    solve [apply sample_verified | split; reflexivity | reflexivity].
Defined.

Lemma zero_amount_is_not_paid_witness :
  let event := Sample.checkout (Sample.session 0) in
  exists resp,
    fetch Sample.decode (Sample.verifier_for event) Sample.request Sample.env []
    = (Normal resp, [])
    /\ status resp = 400%Z
    /\ (link_matches Sample.env (Sample.session 0) = true ->
        response_body resp = "Payment not paid yet"%string).
Proof.
  apply (zero_amount_is_not_paid Sample.decode
           (Sample.verifier_for (Sample.checkout (Sample.session 0)))
           Sample.request Sample.env (Sample.checkout (Sample.session 0))
           (Sample.session 0) []);
    solve [apply sample_verified | split; reflexivity | reflexivity].
Defined.

(** C9, as stated, fails: a paid checkout session for 0 that came through
    another payment link is answered [No payment link found]. *)
Lemma zero_amount_other_link :
  let event := Sample.checkout Sample.other_link_session in
  payment_status Sample.other_link_session = paid
  /\ amount_total Sample.other_link_session = Some 0%Z
  /\ exists resp,
       fetch Sample.decode (Sample.verifier_for event) Sample.request Sample.env []
       = (Normal resp, [])
       /\ response_body resp = "No payment link found"%string
       /\ response_body resp <> "Payment not paid yet"%string.
Proof.
  repeat split.
  eexists. split; [reflexivity|].
  split; [reflexivity|discriminate].
Qed.

End Deliveries.

(* ================================================================= *)
(** ** The paths through the handler *)

Section Paths.

Local Open Scope list_scope.

Variable decode : Uint8Array -> string.
Variable verify : string -> string -> string -> Completion Payload.

(** What [fetch] does once the body is collected. *)
Lemma fetch_readable (request : Request) (env : Env) (c : Console)
    (q : list Uint8Array) :
  readable request q ->
  fetch decode verify request env c
  = if credentials_present env
    then
      match Headers_get (headers request) "stripe-signature" with
      | Some signature =>
          if truthy signature
          then
            match verify (decode (concat q)) signature
                    (STRIPE_WEBHOOK_SIGNING_SECRET env) with
            | Normal NullPayload => (Throw NullEventError, c)
            | Normal (EventPayload event) => handle_event env event c
            | Throw err =>
                (Normal (webhook_error_response err), c ++ [webhook_error_call err])
            end
          else (Normal no_signature_response, c ++ [no_signature_call])
      | None => (Normal no_signature_response, c ++ [no_signature_call])
      end
    else (Normal no_credentials_response, c ++ [credentials_call env]).
Proof.
  unfold readable. intros Hbody.
  unfold fetch. rewrite Hbody, streamToBuffer_closed.
  unfold bind, lift; simpl.
  rewrite credentials_guard.
  destruct (credentials_present env); simpl; [|reflexivity].
  destruct (Headers_get (headers request) "stripe-signature") as [signature|];
    [|reflexivity].
  destruct (truthy signature); simpl; [|reflexivity].
  unfold isDebugInput, ret.
  destruct (verify _ _ _) as [[|event]|err]; reflexivity.
Qed.

Lemma readable_verified (request : Request) (env : Env) (event : Event)
    (q : list Uint8Array) (signature : string) :
  readable request q -> credentials_present env = true ->
  signed_with request signature ->
  verify (decode (concat q)) signature (STRIPE_WEBHOOK_SIGNING_SECRET env)
  = Normal (EventPayload event) ->
  verified_as decode verify request env event.
Proof.
  intros Hbody Hcreds [Hsig Htruthy] Hverify.
  exists (mkStream q Closed false), signature.
  repeat split; assumption.
Qed.

(** The seven ways a request can go. *)
Lemma fetch_cases (request : Request) (env : Env) (c : Console) :
  (body request = None
   /\ fetch decode verify request env c = (Normal no_body_response, c))
  \/ (exists reason,
        body_failure request = Some reason
        /\ fetch decode verify request env c = (Throw reason, c))
  \/ (body request <> None /\ credentials_present env = false
      /\ fetch decode verify request env c
         = (Normal no_credentials_response, c ++ [credentials_call env]))
  \/ (body request <> None /\ credentials_present env = true /\ unsigned request
      /\ fetch decode verify request env c
         = (Normal no_signature_response, c ++ [no_signature_call]))
  \/ (exists err,
        body request <> None /\ credentials_present env = true
        /\ fetch decode verify request env c
           = (Normal (webhook_error_response err), c ++ [webhook_error_call err]))
  \/ (exists event,
        verified_as decode verify request env event
        /\ fetch decode verify request env c = handle_event env event c)
  \/ (verifies_to decode verify request env NullPayload
      /\ fetch decode verify request env c = (Throw NullEventError, c)).
Proof.
  destruct (body request) as [stream|] eqn:Hbody.
  - right.
    assert (Hsome : Some stream <> None) by discriminate.
    destruct stream as [q e l].
    destruct l.
    { left. exists LockedError. split.
      - unfold body_failure. now rewrite Hbody.
      - now apply fetch_locked with (mkStream q e true). }
    destruct e as [|reason].
    2:{ left. exists reason. split.
        - unfold body_failure. now rewrite Hbody.
        - now apply fetch_stream_error with q. }
    right.
    rewrite (fetch_readable request env c q Hbody).
    destruct (credentials_present env) eqn:Hcreds; [|left; repeat split; assumption].
    right.
    destruct (Headers_get (headers request) "stripe-signature") as [signature|] eqn:Hsig.
    2:{ left. repeat split; try assumption. now left. }
    destruct (truthy signature) eqn:Htruthy.
    2:{ left. repeat split; try assumption. right.
        unfold truthy in Htruthy. apply negb_false_iff, String.eqb_eq in Htruthy.
        now subst. }
    right.
    destruct (verify _ _ _) as [[|event]|err] eqn:Hverify.
    + right; right. split; [|reflexivity].
      exists q, signature. repeat split; assumption.
    + right; left. exists event. split; [|reflexivity].
      apply readable_verified with q signature; try assumption. now split.
    + left. exists err. repeat split; assumption.
  - left. split; [reflexivity|].
    unfold fetch. now rewrite Hbody.
Qed.

End Paths.

(* ================================================================= *)
(** ** The branches of the dispatch *)

Section Branches.

Local Open Scope list_scope.

Variable env : Env.

Lemma link_matches_id (s : Session) :
  link_matches env s = true
  <-> payment_link s = link_id (STRIPE_PAYMENT_LINK_ID env).
Proof.
  unfold link_matches, payment_link_differs.
  destruct (payment_link s) as [|i|i]; simpl.
  - split; discriminate.
  - rewrite negb_involutive, String.eqb_eq.
    split; [now intros -> | now intros [= ->]].
  - split; discriminate.
Qed.

Lemma accepted_payable (s : Session) (cust : CustomerDetails) :
  accepted env s cust <-> exists amount, payable env s cust amount.
Proof.
  unfold accepted, payable, paid_check, mode_check, amount_falsy, amount_below,
    is_paid, unsupported_mode.
  rewrite link_matches_id.
  split.
  - intros (Hlink & Hpaid & Hcust & Hmode & Hamount).
    destruct (amount_total s) as [amount|];
      [|rewrite andb_comm in Hpaid; discriminate].
    exists amount.
    apply Z.ltb_ge in Hamount.
    destruct (payment_status s); try discriminate.
    destruct (mode s); try discriminate.
    repeat split; assumption.
  - intros (amount & Hlink & Hstatus & Hamount & Hge & Hcust & Hmode).
    rewrite Hstatus, Hamount, Hmode; simpl.
    repeat split; try assumption.
    + apply negb_true_iff, Z.eqb_neq. lia.
    + apply Z.ltb_ge. assumption.
Qed.

(** A session that is not accepted is refused with status 400, and the
    console is left alone. *)
Lemma checkout_refused (event : Event) (s : Session) (c : Console) :
  checkout_event event s -> (forall cust, ~ accepted env s cust) ->
  exists text, handle_event env event c = (Normal (refusal text), c).
Proof.
  intros [Htype Hobj] Hnot.
  rewrite handle_checkout by assumption.
  unfold checkout_session_completed. rewrite Hobj.
  destruct (payment_link_differs _ _) eqn:Hlink; [eexists; reflexivity|].
  destruct (negb (is_paid _) || amount_falsy _) eqn:Hpaid; [eexists; reflexivity|].
  destruct (customer_details s) as [cust|] eqn:Hcust; [|eexists; reflexivity].
  destruct (unsupported_mode _) eqn:Hmode; [eexists; reflexivity|].
  destruct (amount_below _ _) eqn:Hamount; [eexists; reflexivity|].
  exfalso. apply (Hnot cust).
  apply orb_false_elim in Hpaid. destruct Hpaid as [Hstatus Hfalsy].
  apply negb_false_iff in Hstatus.
  unfold accepted, link_matches, paid_check, mode_check.
  rewrite Hlink, Hstatus, Hfalsy, Hmode.
  repeat split; assumption.
Qed.

Lemma checkout_foreign_object (event : Event) (c : Console) :
  type event = "checkout.session.completed" ->
  (forall s, data_object event <> SessionObject s) ->
  data_object event <> NullObject ->
  handle_event env event c = (Normal (refusal "No payment link found"), c).
Proof.
  intros Htype Hobj Hnull.
  rewrite handle_checkout by assumption.
  unfold checkout_session_completed.
  destruct (data_object event) as [s|sub| |];
    [now destruct (Hobj s) | | | now destruct Hnull]; reflexivity.
Qed.

(** An event of a handled type without an object cannot be read. *)
Lemma handled_without_object (event : Event) (c : Console) :
  unhandled_type (type event) = false -> data_object event = NullObject ->
  exists message, handle_event env event c = (Throw (TypeError message), c).
Proof.
  intros Htype Hobj.
  pose proof (handle_event_outcome env event c) as Hout.
  unfold unreadable in Hout. now rewrite Htype, Hobj in Hout.
Qed.

Lemma subscription_answer (event : Event) (c : Console) :
  subscription_type (type event) -> data_object event <> NullObject ->
  exists message, handle_event env event c = (Normal (subscription_response message), c).
Proof.
  intros Htype Hnull.
  rewrite handle_subscription by exact Htype.
  unfold subscription_event, bind, ret.
  destruct (data_object event) as [s|sub| |].
  - eexists; reflexivity.
  - rewrite updateSubscribed_by_status. eexists; reflexivity.
  - eexists; reflexivity.
  - now destruct Hnull.
Qed.

Lemma type_cases (t : string) :
  t = "checkout.session.completed"%string
  \/ subscription_type t
  \/ unhandled_type t = true.
Proof.
  unfold subscription_type, unhandled_type.
  destruct (String.eqb_spec t "checkout.session.completed"); [now left|].
  destruct (String.eqb_spec t "customer.subscription.deleted"); [now right; left; left|].
  destruct (String.eqb_spec t "customer.subscription.updated");
    [now right; left; right; left|].
  destruct (String.eqb_spec t "customer.subscription.paused");
    [now right; left; right; right|].
  now right; right.
Qed.

(** The five ways a verified event can go. *)
Lemma handle_event_cases (event : Event) (c : Console) :
  (unhandled_type (type event) = true
   /\ handle_event env event c = (Normal invalid_event_response, c))
  \/ (subscription_type (type event)
      /\ exists message,
           handle_event env event c = (Normal (subscription_response message), c))
  \/ (exists s cust,
        checkout_event event s /\ accepted env s cust
        /\ handle_event env event c
           = (Normal (paid_response cust s), c ++ [fulfillment_call cust s]))
  \/ (type event = "checkout.session.completed"%string
      /\ exists text, handle_event env event c = (Normal (refusal text), c))
  \/ (data_object event = NullObject
      /\ exists message, handle_event env event c = (Throw (TypeError message), c)).
Proof.
  destruct (type_cases (type event)) as [Htype | [Htype | Htype]].
  - right; right.
    destruct (data_object event) as [s|sub| |] eqn:Hobj.
    + destruct (customer_details s) as [cust|] eqn:Hcust.
      * destruct (link_matches env s && paid_check s && mode_check s
                  && negb (amount_below (amount_total s) 50)) eqn:Hall.
        -- left. exists s, cust.
           repeat (apply andb_prop in Hall; destruct Hall as [Hall ?]).
           assert (Hacc : accepted env s cust).
           { repeat split; try assumption. now apply negb_true_iff. }
           split; [now split|]. split; [assumption|].
           apply checkout_accepted; [now split | assumption].
        -- right; left. split; [assumption|].
           apply checkout_refused with s; [now split|].
           intros cust' (Hlink & Hpaid & _ & Hmode & Hamount).
           rewrite Hlink, Hpaid, Hmode, Hamount in Hall. discriminate.
      * right; left. split; [assumption|].
        apply checkout_refused with s; [now split|].
        intros cust' (_ & _ & Hsome & _). congruence.
    + right; left. split; [assumption|]. eexists.
      apply checkout_foreign_object; [assumption| |congruence].
      intros s'. congruence.
    + right; left. split; [assumption|]. eexists.
      apply checkout_foreign_object; [assumption| |congruence].
      intros s'. congruence.
    + right; right. split; [reflexivity|].
      apply handled_without_object; [now rewrite Htype | assumption].
  - destruct (data_object event) as [s|sub| |] eqn:Hobj;
      try (right; left; split; [assumption|];
           apply subscription_answer; [assumption | congruence]).
    right; right; right; right. split; [reflexivity|].
    apply handled_without_object; [|assumption].
    unfold unhandled_type.
    destruct Htype as [-> | [-> | ->]]; reflexivity.
  - left. split; [assumption|]. now apply handle_unhandled.
Qed.

Lemma accepted_decided (s : Session) :
  (exists cust, accepted env s cust) \/ (forall cust, ~ accepted env s cust).
Proof.
  destruct (customer_details s) as [cust|] eqn:Hcust.
  - destruct (link_matches env s && paid_check s && mode_check s
              && negb (amount_below (amount_total s) 50)) eqn:Hall.
    + left. exists cust.
      repeat (apply andb_prop in Hall; destruct Hall as [Hall ?]).
      repeat split; try assumption. now apply negb_true_iff.
    + right. intros cust' (Hlink & Hpaid & _ & Hmode & Hamount).
      rewrite Hlink, Hpaid, Hmode, Hamount in Hall. discriminate.
  - right. intros cust' (_ & _ & Hsome & _). congruence.
Qed.

(** Whatever the event, the console grows by at most one call, and neither
    the answer nor that call depends on what the console held. *)
Lemma handle_event_frame (event : Event) :
  exists r d,
    (length d <= 1)%nat /\ forall c, handle_event env event c = (r, c ++ d).
Proof.
  unfold handle_event, checkout_session_completed, subscription_event,
    isDebugInput, bind, lift, ret, console_log.
  assert (Hsame : forall (r : Completion Response),
             exists r' d, (length d <= 1)%nat
                          /\ forall c : Console, (r, c) = (r', c ++ d)).
  { intros r. exists r, []. split; [simpl; lia|].
    intros c. now rewrite app_nil_r. }
  destruct (String.eqb (type event) "checkout.session.completed").
  - destruct (data_object event) as [s|sub| |]; try apply Hsame.
    destruct (payment_link_differs _ _); [apply Hsame|].
    destruct (negb (is_paid _) || amount_falsy _); [apply Hsame|].
    destruct (customer_details s) as [cust|]; [|apply Hsame].
    destruct (unsupported_mode _); [apply Hsame|].
    destruct (amount_below _ _); [apply Hsame|].
    eexists. eexists. split; [|intros c; reflexivity]. simpl; lia.
  - destruct (String.eqb (type event) "customer.subscription.deleted"
              || String.eqb (type event) "customer.subscription.updated"
              || String.eqb (type event) "customer.subscription.paused");
      [destruct (data_object event) as [s|sub| |]|]; apply Hsame.
Qed.

End Branches.

(* ================================================================= *)
(** ** The contract of the handler, path by path *)

Section Contract.

Local Open Scope list_scope.

Variable decode : Uint8Array -> string.
Variable verify : string -> string -> string -> Completion Payload.

(** X1.  When one of the four credentials is not configured, a request
    whose body can be read is answered 500 [No stripe creds], whatever its
    headers and whatever the verification would say, and the publishable
    key, the secret key and the signing secret are written to the console. *)
Theorem missing_credentials_are_answered_500 (request : Request) (env : Env)
    (c : Console) (q : list Uint8Array) :
  readable request q -> credentials_present env = false ->
  fetch decode verify request env c
  = (Normal no_credentials_response, c ++ [credentials_call env]).
Proof.
  intros Hbody Hcreds.
  now rewrite (fetch_readable decode verify request env c q Hbody), Hcreds.
Qed.

(** X2.  With the credentials configured, a request without a
    [stripe-signature] header, or with an empty one, is answered 400
    [No signature] and logged; the verification is not consulted. *)
Theorem missing_signature_is_answered_400 (request : Request) (env : Env)
    (c : Console) (q : list Uint8Array) :
  readable request q -> credentials_present env = true -> unsigned request ->
  fetch decode verify request env c
  = (Normal no_signature_response, c ++ [no_signature_call]).
Proof.
  intros Hbody Hcreds Hsig.
  rewrite (fetch_readable decode verify request env c q Hbody), Hcreds.
  destruct Hsig as [Hsig | Hsig]; now rewrite Hsig.
Qed.

(** X3.  An error thrown by the verification is caught: the request is
    answered 400 with [webhook error] followed by the text of the error, and
    the error is written to the console as a warning. *)
Theorem verification_error_is_answered_400 (request : Request) (env : Env)
    (c : Console) (q : list Uint8Array) (signature : string) (err : JsError) :
  readable request q -> credentials_present env = true ->
  signed_with request signature ->
  verify (decode (concat q)) signature (STRIPE_WEBHOOK_SIGNING_SECRET env)
  = Throw err ->
  fetch decode verify request env c
  = (Normal (webhook_error_response err), c ++ [webhook_error_call err]).
Proof.
  intros Hbody Hcreds [Hsig Htruthy] Hverify.
  now rewrite (fetch_readable decode verify request env c q Hbody), Hcreds,
    Hsig, Htruthy, Hverify.
Qed.

Lemma handle_event_status (env : Env) (event : Event) (c c' : Console)
    (resp : Response) :
  handle_event env event c = (Normal resp, c') ->
  status resp = 404%Z \/ status resp = 200%Z \/ status resp = 400%Z.
Proof.
  intros Hrun.
  destruct (handle_event_cases env event c)
    as [[_ H] | [[_ [m H]] | [(s & cust & _ & _ & H)
        | [[_ [text H]] | [_ [message H]]]]]];
    rewrite H in Hrun; try discriminate; injection Hrun as <- _; simpl; auto.
Qed.

(** X4.  Status 500 is the answer to a missing credential and to nothing
    else: a response has status 500 exactly when the request has a body and
    one of the four credentials is not configured. *)
Theorem server_error_means_missing_credentials (request : Request) (env : Env)
    (c c' : Console) (resp : Response) :
  fetch decode verify request env c = (Normal resp, c') ->
  (status resp = 500%Z
   <-> body request <> None /\ credentials_present env = false).
Proof.
  intros Hrun.
  destruct (fetch_cases decode verify request env c)
    as [[Hnone H] | [[reason [_ H]] | [(Hsome & Hcreds & H)
        | [(Hsome & Hcreds & _ & H) | [(err & Hsome & Hcreds & H)
        | [(event & Hver & H) | [Hnull H]]]]]]];
    rewrite H in Hrun.
  - injection Hrun as <- _. simpl. split; [discriminate | now intros [? _]].
  - discriminate.
  - injection Hrun as <- _. simpl. split; [now split | reflexivity].
  - injection Hrun as <- _. simpl. split; [discriminate | intros [_ ?]; congruence].
  - injection Hrun as <- _. simpl. split; [discriminate | intros [_ ?]; congruence].
  - destruct Hver as (stream & signature & _ & _ & _ & Hcreds & _).
    split; [|intros [_ ?]; congruence].
    intros H500.
    destruct (handle_event_status env event c c' resp Hrun) as [? | [? | ?]];
      congruence.
  - discriminate.
Qed.

(** X5.  A request that has a body is answered with a success status only
    when the event was verified, and is a subscription event or a checkout
    that came through the configured payment link, is paid, is for at least
    50, has customer details and is a one-time payment. *)
Theorem success_requires_verification (request : Request) (env : Env)
    (c c' : Console) (resp : Response) :
  fetch decode verify request env c = (Normal resp, c') ->
  success_status (status resp) = true ->
  body request = None
  \/ exists event,
       verified_as decode verify request env event
       /\ (subscription_type (type event)
           \/ exists s cust amount,
                checkout_event event s /\ payable env s cust amount).
Proof.
  intros Hrun Hok.
  destruct (fetch_cases decode verify request env c)
    as [[Hnone H] | [[reason [_ H]] | [(Hsome & Hcreds & H)
        | [(Hsome & Hcreds & _ & H) | [(err & Hsome & Hcreds & H)
        | [(event & Hver & H) | [Hnull H]]]]]]];
    rewrite H in Hrun;
    try (injection Hrun as <- _; simpl in Hok; discriminate).
  - now left.
  - discriminate.
  - right. exists event. split; [assumption|].
    destruct (handle_event_cases env event c)
      as [[_ H'] | [[Htype _] | [(s & cust & Hevent & Hacc & _)
          | [[_ [text H']] | [_ [message H']]]]]].
    + rewrite H' in Hrun. injection Hrun as <- _. discriminate.
    + now left.
    + right. apply accepted_payable in Hacc. destruct Hacc as [amount Hpay].
      now exists s, cust, amount.
    + rewrite H' in Hrun. injection Hrun as <- _. discriminate.
    + rewrite H' in Hrun. discriminate.
  - discriminate.
Qed.

Lemma fulfillments_other_call (c : Console) (call : ConsoleCall) :
  is_fulfillment call = false -> fulfillments (c ++ [call]) = fulfillments c.
Proof.
  intros Hcall. rewrite fulfillments_app.
  unfold fulfillments at 2. simpl. rewrite Hcall. simpl. lia.
Qed.

(** X6.  The place where the payment is to be fulfilled is reached only for
    a verified checkout event that came through the configured payment
    link, is paid, is for at least 50, has customer details and is a
    one-time payment; on every other request, whatever is logged, no
    fulfillment is. *)
Theorem fulfillment_requires_a_payable_checkout (request : Request) (env : Env)
    (c : Console) :
  fulfillments (snd (fetch decode verify request env c)) = fulfillments c
  \/ exists event s cust amount,
       verified_as decode verify request env event
       /\ checkout_event event s
       /\ payable env s cust amount
       /\ fetch decode verify request env c
          = (Normal (paid_response cust s), c ++ [fulfillment_call cust s]).
Proof.
  destruct (fetch_cases decode verify request env c)
    as [[Hnone H] | [[reason [_ H]] | [(Hsome & Hcreds & H)
        | [(Hsome & Hcreds & _ & H) | [(err & Hsome & Hcreds & H)
        | [(event & Hver & H) | [Hnull H]]]]]]];
    rewrite H; simpl;
    try (left; reflexivity);
    try (left; now apply fulfillments_other_call).
  destruct (handle_event_cases env event c)
    as [[_ H'] | [[_ [m H']] | [(s & cust & Hevent & Hacc & H')
        | [[_ [text H']] | [_ [message H']]]]]];
    rewrite H'; simpl; try (left; reflexivity).
  right. apply accepted_payable in Hacc. destruct Hacc as [amount Hpay].
  now exists event, s, cust, amount.
Qed.

(** X7.  A request adds at most one call to the console, after what the
    console holds already, and neither its answer nor that call depends on
    what was logged before. *)
Theorem fetch_logs_at_most_once (request : Request) (env : Env) :
  exists r d,
    (length d <= 1)%nat
    /\ forall c, fetch decode verify request env c = (r, c ++ d).
Proof.
  assert (Hsame : forall (r : Completion Response),
             exists r' d, (length d <= 1)%nat
                          /\ forall c : Console, (r, c) = (r', c ++ d)).
  { intros r. exists r, []. split; [simpl; lia|].
    intros c. now rewrite app_nil_r. }
  assert (Hone : forall (r : Completion Response) (call : ConsoleCall),
             exists r' d, (length d <= 1)%nat
                          /\ forall c : Console, (r, c ++ [call]) = (r', c ++ d)).
  { intros r call. exists r, [call]. split; [simpl; lia|]. reflexivity. }
  destruct (body request) as [stream|] eqn:Hbody.
  - destruct stream as [q e l]. destruct l.
    { destruct (Hsame (Throw LockedError)) as (r & d & Hd & Heq).
      exists r, d. split; [assumption|]. intros c. rewrite <- Heq.
      now apply fetch_locked with (mkStream q e true). }
    destruct e as [|reason].
    2:{ destruct (Hsame (Throw reason)) as (r & d & Hd & Heq).
        exists r, d. split; [assumption|]. intros c. rewrite <- Heq.
        now apply fetch_stream_error with q. }
    assert (Hr : readable request q) by exact Hbody.
    destruct (credentials_present env) eqn:Hcreds.
    2:{ destruct (Hone (Normal no_credentials_response) (credentials_call env))
          as (r & d & Hd & Heq).
        exists r, d. split; [assumption|]. intros c. rewrite <- Heq.
        now rewrite (fetch_readable decode verify request env c q Hr), Hcreds. }
    destruct (Headers_get (headers request) "stripe-signature") as [signature|] eqn:Hsig.
    2:{ destruct (Hone (Normal no_signature_response) no_signature_call)
          as (r & d & Hd & Heq).
        exists r, d. split; [assumption|]. intros c. rewrite <- Heq.
        now rewrite (fetch_readable decode verify request env c q Hr), Hcreds, Hsig. }
    destruct (truthy signature) eqn:Htruthy.
    2:{ destruct (Hone (Normal no_signature_response) no_signature_call)
          as (r & d & Hd & Heq).
        exists r, d. split; [assumption|]. intros c. rewrite <- Heq.
        now rewrite (fetch_readable decode verify request env c q Hr), Hcreds,
          Hsig, Htruthy. }
    destruct (verify (decode (concat q)) signature
                (STRIPE_WEBHOOK_SIGNING_SECRET env)) as [[|event]|err] eqn:Hverify.
    + destruct (Hsame (Throw NullEventError)) as (r & d & Hd & Heq).
      exists r, d. split; [assumption|]. intros c. rewrite <- Heq.
      now rewrite (fetch_readable decode verify request env c q Hr), Hcreds,
        Hsig, Htruthy, Hverify.
    + destruct (handle_event_frame env event) as (r & d & Hd & Heq).
      exists r, d. split; [assumption|]. intros c. rewrite <- Heq.
      now rewrite (fetch_readable decode verify request env c q Hr), Hcreds,
        Hsig, Htruthy, Hverify.
    + destruct (Hone (Normal (webhook_error_response err)) (webhook_error_call err))
        as (r & d & Hd & Heq).
      exists r, d. split; [assumption|]. intros c. rewrite <- Heq.
      now rewrite (fetch_readable decode verify request env c q Hr), Hcreds,
        Hsig, Htruthy, Hverify.
  - destruct (Hsame (Normal no_body_response)) as (r & d & Hd & Heq).
    exists r, d. split; [assumption|]. intros c. rewrite <- Heq.
    unfold fetch. now rewrite Hbody.
Qed.

(** X8.  How the body is cut into chunks does not matter: two requests with
    the same headers whose bodies deliver the same bytes in the same order
    are answered alike and log alike. *)
Theorem chunking_does_not_matter (u m : string) (h : Headers)
    (q1 q2 : list Uint8Array) (env : Env) (c : Console) :
  concat q1 = concat q2 ->
  fetch decode verify (mkRequest u m h (Some (mkStream q1 Closed false))) env c
  = fetch decode verify (mkRequest u m h (Some (mkStream q2 Closed false))) env c.
Proof.
  intros Hbytes.
  rewrite (fetch_readable decode verify
             (mkRequest u m h (Some (mkStream q1 Closed false))) env c q1 eq_refl),
    (fetch_readable decode verify
       (mkRequest u m h (Some (mkStream q2 Closed false))) env c q2 eq_refl).
  simpl. now rewrite Hbytes.
Qed.

End Contract.

(* ================================================================= *)
(** ** The collector and the two handled kinds of event *)

Section Events.

Local Open Scope list_scope.

Variable decode : Uint8Array -> string.
Variable verify : string -> string -> string -> Completion Payload.

(** X9.  [streamToBuffer] is all or nothing: on a stream that closes it
    returns every byte delivered, and on a stream that fails it throws the
    reason of the failure, however many chunks were read before, and returns
    no part of them.  Either way the stream is left drained and unlocked. *)
Theorem streamToBuffer_all_or_nothing (q : list Uint8Array) (e : StreamEnd) :
  streamToBuffer (mkStream q e false)
  = (match e with
     | Closed => Normal (concat q)
     | Errored reason => Throw reason
     end,
     mkStream [] e false).
Proof.
  destruct e as [|reason].
  - apply streamToBuffer_closed.
  - apply streamToBuffer_errored.
Qed.

(** X10.  A verified checkout event is fulfilled exactly when its session
    came through the configured payment link, is paid, is for at least 50,
    has customer details and is a one-time payment: then the payment is
    logged once and answered 200.  In every other case it is answered 400
    and the console is left as it was. *)
Theorem checkout_is_fulfilled_or_refused (request : Request) (env : Env)
    (event : Event) (s : Session) (c : Console) :
  verified_as decode verify request env event -> checkout_event event s ->
  (exists cust amount,
     payable env s cust amount
     /\ fetch decode verify request env c
        = (Normal (paid_response cust s), c ++ [fulfillment_call cust s]))
  \/ ((forall cust amount, ~ payable env s cust amount)
      /\ exists text,
           fetch decode verify request env c = (Normal (refusal text), c)).
Proof.
  intros Hver Hevent.
  rewrite (fetch_verified _ _ _ _ _ _ Hver).
  destruct (accepted_decided env s) as [[cust Hacc] | Hnot].
  - left.
    destruct (proj1 (accepted_payable env s cust) Hacc) as [amount Hpay].
    exists cust, amount. split; [assumption|].
    now apply checkout_accepted.
  - right. split.
    + intros cust amount Hpay. apply (Hnot cust).
      apply accepted_payable. now exists amount.
    + now apply checkout_refused with s.
Qed.

(** X11.  The payment link is checked first: a session whose payment link is
    anything but the configured id (another id, [null], or an expanded
    object, even one with the configured id) is answered 400
    [No payment link found], whatever else it holds. *)
Theorem other_payment_link_is_refused_first (request : Request) (env : Env)
    (event : Event) (s : Session) (c : Console) :
  verified_as decode verify request env event -> checkout_event event s ->
  payment_link s <> link_id (STRIPE_PAYMENT_LINK_ID env) ->
  fetch decode verify request env c
  = (Normal (refusal "No payment link found"), c).
Proof.
  intros Hver [Htype Hobj] Hlink.
  rewrite (fetch_verified _ _ _ _ _ _ Hver), handle_checkout by assumption.
  unfold checkout_session_completed. rewrite Hobj.
  destruct (payment_link_differs _ _) eqn:Hdiff; [reflexivity|].
  exfalso. apply Hlink. apply link_matches_id.
  unfold link_matches. now rewrite Hdiff.
Qed.

(** X12.  After the payment link, the payment: a session from the configured
    link that is not paid, or has no amount, or has the amount 0, is
    answered 400 [Payment not paid yet], whatever its customer details and
    mode. *)
Theorem unpaid_session_is_refused (request : Request) (env : Env)
    (event : Event) (s : Session) (c : Console) :
  verified_as decode verify request env event -> checkout_event event s ->
  payment_link s = link_id (STRIPE_PAYMENT_LINK_ID env) ->
  payment_status s <> paid \/ amount_total s = None \/ amount_total s = Some 0%Z ->
  fetch decode verify request env c
  = (Normal (refusal "Payment not paid yet"), c).
Proof.
  intros Hver [Htype Hobj] Hlink Hunpaid.
  rewrite (fetch_verified _ _ _ _ _ _ Hver), handle_checkout by assumption.
  unfold checkout_session_completed. rewrite Hobj.
  apply link_matches_id in Hlink. unfold link_matches in Hlink.
  apply negb_true_iff in Hlink. rewrite Hlink.
  destruct Hunpaid as [Hstatus | [Hamount | Hamount]].
  - destruct (payment_status s); [now destruct Hstatus| |]; reflexivity.
  - rewrite Hamount. simpl. now rewrite orb_true_r.
  - rewrite Hamount. simpl. now rewrite orb_true_r.
Qed.

(** X13.  The mode is checked before the amount is compared with 50: a paid
    session from the configured link with customer details whose mode is
    [subscription] or [setup] is answered 400 [Not supported yet], whatever
    its amount. *)
Theorem other_mode_is_refused (request : Request) (env : Env)
    (event : Event) (s : Session) (cust : CustomerDetails) (amount : Z)
    (c : Console) :
  verified_as decode verify request env event -> checkout_event event s ->
  payment_link s = link_id (STRIPE_PAYMENT_LINK_ID env) ->
  payment_status s = paid -> amount_total s = Some amount -> amount <> 0%Z ->
  customer_details s = Some cust -> mode s <> mode_payment ->
  fetch decode verify request env c
  = (Normal (refusal "Not supported yet"), c).
Proof.
  intros Hver [Htype Hobj] Hlink Hstatus Hamount Hnonzero Hcust Hmode.
  rewrite (fetch_verified _ _ _ _ _ _ Hver), handle_checkout by assumption.
  unfold checkout_session_completed. rewrite Hobj.
  apply link_matches_id in Hlink. unfold link_matches in Hlink.
  apply negb_true_iff in Hlink. rewrite Hlink, Hstatus, Hamount; simpl.
  apply Z.eqb_neq in Hnonzero. rewrite Hnonzero, Hcust.
  destruct (mode s); [now destruct Hmode| |]; reflexivity.
Qed.

(** X14.  A verified subscription event is always answered with HTTP status
    200 and never logged; which of the three event types it has plays no
    role.  The message is the removal message exactly when the status of
    the subscription is [unpaid] or [canceled], and [No action required]
    otherwise. *)
Theorem subscription_is_removed_when_unpaid_or_canceled (request : Request)
    (env : Env) (event : Event) (sub : Subscription) (c : Console) :
  verified_as decode verify request env event ->
  subscription_type (type event) -> data_object event = SubscriptionObject sub ->
  exists message,
    fetch decode verify request env c = (Normal (subscription_response message), c)
    /\ (message = removal_message
        <-> subscription_status sub = unpaid \/ subscription_status sub = canceled)
    /\ (message = "No action required"%string
        <-> subscription_status sub <> unpaid /\ subscription_status sub <> canceled).
Proof.
  intros Hver Htype Hobj.
  rewrite (fetch_verified _ _ _ _ _ _ Hver), handle_subscription by exact Htype.
  unfold subscription_event. rewrite Hobj, updateSubscribed_by_status.
  destruct (subscription_status sub); eexists; (split; [reflexivity|]);
    unfold removal_message; simpl;
    repeat split; try discriminate; try reflexivity;
    try (intros [? | ?]; discriminate); try (now left); try (now right);
    try (intros [? ?]; congruence).
Qed.

End Events.

(* ================================================================= *)
(** ** The contract on concrete requests *)

Section Instances.

Local Open Scope list_scope.

Lemma missing_credentials_are_answered_500_witness :
  credentials_present Cases.env_without_link = false
  /\ fetch Sample.decode (Sample.verifier_for Sample.foo_bar) Cases.unsigned_request
       Cases.env_without_link []
     = (Normal no_credentials_response, [credentials_call Cases.env_without_link]).
Proof.
  split; [reflexivity|].
  apply (missing_credentials_are_answered_500 Sample.decode
           (Sample.verifier_for Sample.foo_bar) Cases.unsigned_request
           Cases.env_without_link [] Sample.payload); reflexivity.
Defined.

Lemma missing_signature_is_answered_400_witness :
  Headers_get (headers Cases.unsigned_request) "stripe-signature" = None
  /\ fetch Sample.decode (Sample.verifier_for Sample.foo_bar) Cases.unsigned_request
       Sample.env []
     = (Normal no_signature_response, [no_signature_call]).
Proof.
  split; [reflexivity|].
  apply (missing_signature_is_answered_400 Sample.decode
           (Sample.verifier_for Sample.foo_bar) Cases.unsigned_request
           Sample.env [] Sample.payload);
    [reflexivity | reflexivity | left; reflexivity].
Defined.

Lemma verification_error_is_answered_400_witness :
  fetch Sample.decode (Sample.verifier_for Sample.foo_bar) Cases.forged_request
    Sample.env []
  = (Normal (webhook_error_response Sample.SignatureError),
     [webhook_error_call Sample.SignatureError]).
Proof.
  apply (verification_error_is_answered_400 Sample.decode
           (Sample.verifier_for Sample.foo_bar) Cases.forged_request
           Sample.env [] Sample.payload "t=1,v1=forged"%string
           Sample.SignatureError);
    [reflexivity | reflexivity | split; reflexivity | reflexivity].
Defined.

Lemma server_error_means_missing_credentials_witness :
  status no_credentials_response = 500%Z
  <-> body Cases.unsigned_request <> None
      /\ credentials_present Cases.env_without_link = false.
Proof.
  apply (server_error_means_missing_credentials Sample.decode
           (Sample.verifier_for Sample.foo_bar) Cases.unsigned_request
           Cases.env_without_link [] [credentials_call Cases.env_without_link]
           no_credentials_response).
  reflexivity.
Defined.

Lemma success_requires_verification_witness :
  success_status (status (paid_response Sample.customer (Sample.session 500))) = true
  /\ (body Sample.request = None
      \/ exists event,
           verified_as Sample.decode
             (Sample.verifier_for (Sample.checkout (Sample.session 500)))
             Sample.request Sample.env event
           /\ (subscription_type (type event)
               \/ exists s cust amount,
                    checkout_event event s /\ payable Sample.env s cust amount)).
Proof.
  split; [reflexivity|].
  apply (success_requires_verification Sample.decode
           (Sample.verifier_for (Sample.checkout (Sample.session 500)))
           Sample.request Sample.env []
           [fulfillment_call Sample.customer (Sample.session 500)]
           (paid_response Sample.customer (Sample.session 500)));
    reflexivity.
Defined.

Lemma chunking_does_not_matter_witness :
  Sample.payload <> Cases.rechunked
  /\ fetch Sample.decode (Sample.verifier_for (Sample.checkout (Sample.session 500)))
       (Sample.post (Some (mkStream Sample.payload Closed false))) Sample.env []
     = fetch Sample.decode (Sample.verifier_for (Sample.checkout (Sample.session 500)))
         (Sample.post (Some (mkStream Cases.rechunked Closed false))) Sample.env [].
Proof.
  split; [discriminate|].
  apply (chunking_does_not_matter Sample.decode
           (Sample.verifier_for (Sample.checkout (Sample.session 500)))
           "https://example.com/stripe-webhook"%string "POST"%string
           [("content-type"%string, "application/json"%string);
            ("stripe-signature"%string, "t=1,v1=valid"%string)]
           Sample.payload Cases.rechunked Sample.env []).
  reflexivity.
Defined.

Lemma checkout_is_fulfilled_or_refused_witness :
  let event := Sample.checkout Cases.threshold_session in
  (exists cust amount,
     payable Sample.env Cases.threshold_session cust amount
     /\ fetch Sample.decode (Sample.verifier_for event) Sample.request Sample.env []
        = (Normal (paid_response cust Cases.threshold_session),
           [] ++ [fulfillment_call cust Cases.threshold_session]))
  \/ ((forall cust amount, ~ payable Sample.env Cases.threshold_session cust amount)
      /\ exists text,
           fetch Sample.decode (Sample.verifier_for event) Sample.request Sample.env []
           = (Normal (refusal text), [])).
Proof.
  apply (checkout_is_fulfilled_or_refused Sample.decode
           (Sample.verifier_for (Sample.checkout Cases.threshold_session))
           Sample.request Sample.env (Sample.checkout Cases.threshold_session)
           Cases.threshold_session []);
    [apply sample_verified | split; reflexivity].
Defined.

Lemma other_payment_link_is_refused_first_witness :
  let event := Sample.checkout Cases.expanded_link_session in
  payment_link Cases.expanded_link_session
    = link_expanded (STRIPE_PAYMENT_LINK_ID Sample.env)
  /\ fetch Sample.decode (Sample.verifier_for event) Sample.request Sample.env []
     = (Normal (refusal "No payment link found"), []).
Proof.
  split; [reflexivity|].
  apply (other_payment_link_is_refused_first Sample.decode
           (Sample.verifier_for (Sample.checkout Cases.expanded_link_session))
           Sample.request Sample.env (Sample.checkout Cases.expanded_link_session)
           Cases.expanded_link_session []);
    [apply sample_verified | split; reflexivity | discriminate].
Defined.

Lemma unpaid_session_is_refused_witness :
  let event := Sample.checkout Cases.null_amount_session in
  amount_total Cases.null_amount_session = None
  /\ fetch Sample.decode (Sample.verifier_for event) Sample.request Sample.env []
     = (Normal (refusal "Payment not paid yet"), []).
Proof.
  split; [reflexivity|].
  apply (unpaid_session_is_refused Sample.decode
           (Sample.verifier_for (Sample.checkout Cases.null_amount_session))
           Sample.request Sample.env (Sample.checkout Cases.null_amount_session)
           Cases.null_amount_session []);
    [apply sample_verified | split; reflexivity | reflexivity
     | right; left; reflexivity].
Defined.

Lemma other_mode_is_refused_witness :
  let event := Sample.checkout Cases.setup_session in
  (10 < 50)%Z
  /\ fetch Sample.decode (Sample.verifier_for event) Sample.request Sample.env []
     = (Normal (refusal "Not supported yet"), []).
Proof.
  split; [reflexivity|].
  apply (other_mode_is_refused Sample.decode
           (Sample.verifier_for (Sample.checkout Cases.setup_session))
           Sample.request Sample.env (Sample.checkout Cases.setup_session)
           Cases.setup_session Sample.customer 10 []);
    [apply sample_verified | split; reflexivity | reflexivity | reflexivity
     | reflexivity | discriminate | reflexivity | discriminate].
Defined.

Lemma subscription_is_removed_when_unpaid_or_canceled_witness :
  let event := Sample.subscription "customer.subscription.updated" canceled in
  exists message,
    fetch Sample.decode (Sample.verifier_for event) Sample.request Sample.env []
    = (Normal (subscription_response message), [])
    /\ (message = removal_message <-> canceled = unpaid \/ canceled = canceled)
    /\ (message = "No action required"%string
        <-> canceled <> unpaid /\ canceled <> canceled).
Proof.
  apply (subscription_is_removed_when_unpaid_or_canceled Sample.decode
           (Sample.verifier_for
              (Sample.subscription "customer.subscription.updated" canceled))
           Sample.request Sample.env
           (Sample.subscription "customer.subscription.updated" canceled)
           (mkSubscription canceled) []);
    [apply sample_verified | right; left; reflexivity | reflexivity].
Defined.

End Instances.

(* ================================================================= *)
(** ** What leaves the handler as an exception *)

Section Recovery.

Local Open Scope list_scope.

Variable decode : Uint8Array -> string.
Variable verify : string -> string -> string -> Completion Payload.



End Recovery.

(* ================================================================= *)
(** ** Payloads that cannot be read, on concrete requests *)

Section Unreadable.

(** A signed body [null]: the body is read to its end, the signature
    verifies, and reading the type of the event throws. *)
Lemma null_payload_escapes :
  body_failure Sample.request = None
  /\ fetch Sample.decode Cases.null_verifier Sample.request Sample.env []
     = (Throw NullEventError, []).
Proof. split; reflexivity. Qed.

(** A signed subscription event without [data.object]: [updateSubscribed]
    throws when it reads the status. *)
Lemma objectless_event_escapes :
  body_failure Sample.request = None
  /\ fetch Sample.decode (Sample.verifier_for Cases.objectless) Sample.request
       Sample.env []
     = (Throw NullSubscriptionError, []).
Proof. split; reflexivity. Qed.

(** The same event with a type the worker does not handle is answered: its
    object is never read. *)
Lemma objectless_unhandled_event_is_answered :
  fetch Sample.decode
    (Sample.verifier_for (mkEvent "evt_5" "invoice.paid" NullObject))
    Sample.request Sample.env []
  = (Normal invalid_event_response, []).
Proof. reflexivity. Qed.

End Unreadable.
